(** * apply_hann_window_lon: a Hann taper along the longitude axis

    A shallow embedding of [apply_hanning_window.py].  The file has one
    function, [apply_hann_window_lon(da, center_lon, window_size)], which
    builds a one-dimensional mask with [np.hanning], places it on the
    longitude axis with [np.arange] and [np.searchsorted], and multiplies a
    three-dimensional labelled array by the mask.

    Numbers.  The Python code computes with binary64 values.  Here the
    longitude coordinates and the window centre are rationals ([Q]) and the
    field and mask values are reals ([R]): every operation is the exact
    one, with no rounding, no infinity and no NaN.  The two agree where
    binary64 is exact: the sums, differences and comparisons of lines 18-29
    are exact on integers of moderate size (predicate [whole_inputs]
    below), and a product of a value with the mask is the same product
    whatever the carrier.  They differ where binary64 rounds: off the grid
    [np.arange] can step through one candidate more than the exact count,
    and the product is not associative.  Statements that need the exact
    count of candidates therefore carry the hypothesis [whole_inputs], and
    statements about values are written as products with the mask, not as
    their simplified forms.  Module [f64] holds the product of line 38 and
    the length quotient of [np.arange] on binary64 values, for the
    examples in which rounding shows.

    Layout.  Part 1 embeds the [numpy] primitives the function calls, part 2
    the labelled array and the function itself as a pure function into a
    result type (a raised exception is a value [Raise e]).  Part 3 embeds the
    same function once more over an explicit object store, with the in-place
    writes the source performs, for the statements about mutation. *)

From Stdlib Require Import String Ascii DecimalString.
From Stdlib Require Import List Bool Arith ZArith QArith Qround Qabs Reals.
From Stdlib Require Import Psatz.
From Stdlib Require Import Floats.
Import ListNotations.

Close Scope Q_scope.
Close Scope R_scope.
Open Scope string_scope.
Open Scope list_scope.
Open Scope nat_scope.

(** ** Exceptions and the result monad *)

(** The exceptions the function can raise, named by their cause. *)
Inductive exn : Type :=
| AttributeError   (* [da.lon]: the array has no coordinate [lon] *)
| IndexError       (* [x[0]], [x[1]], [x[-1]] or [da.shape[k]] out of range *)
| ZeroStep         (* [np.arange] with a step of zero has no length *)
| BroadcastError   (* ValueError: shapes that cannot be broadcast together *)
| TypeError.       (* a reference that holds no object of the expected kind *)

Inductive result (A : Type) : Type :=
| Ok (a : A)
| Raise (e : exn).

Arguments Ok {A} a.
Arguments Raise {A} e.

Definition bind {A B : Type} (r : result A) (k : A -> result B) : result B :=
  match r with
  | Ok a => k a
  | Raise e => Raise e
  end.

Notation "'let*' x ':=' r 'in' k" := (bind r (fun x => k))
  (at level 10, x name, r at level 100, k at level 200).

Definition of_option {A : Type} (e : exn) (o : option A) : result A :=
  match o with
  | Some a => Ok a
  | None => Raise e
  end.

(** ** Part 1: the numpy primitives *)

Module np.

(** [np.arange(start, stop, step)] on integers with a positive step: the
    values [start + i*step] for [i < ceil((stop - start)/step)]. *)
Definition arange_int (start stop step : Z) : list Z :=
  map (fun i => (start + Z.of_nat i * step)%Z)
      (seq 0 (Z.to_nat ((stop - start + step - 1) / step))).

(** [np.hanning(M)]:
<<
    if M < 1: return array([])
    if M == 1: return ones(1)
    n = arange(1-M, M, 2)
    return 0.5 + 0.5*cos(pi*n/(M-1))
>> *)
Definition hanning (M : Z) : list R :=
  if (M <? 1)%Z then []
  else if (M =? 1)%Z then [1%R]
  else map (fun n => (1/2 + 1/2 * cos (PI * IZR n / IZR (M - 1)))%R)
           (arange_int (1 - M) M 2).

(** [np.zeros(n)]. *)
Definition zeros (n : nat) : list R := repeat 0%R n.

(** [np.arange(start, stop, step)] on floats: [ceil((stop - start)/step)]
    values [start + i*step]; no value when that length is not positive; an
    exception when the step is zero.  The quotient and the values are the
    exact ones; numpy rounds each to binary64 (see [f64.arange_quotient]),
    which changes nothing when [start], [stop] and [step] are integers of
    moderate size. *)
Definition arange (start stop step : Q) : result (list Q) :=
  if Qeq_bool step 0%Q then Raise ZeroStep
  else
    let len := Z.to_nat (Qceiling ((stop - start) / step)%Q) in
    Ok (map (fun i => (start + inject_Z (Z.of_nat i) * step)%Q) (seq 0 len)).

(** The binary search of [np.searchsorted(a, v, side='left')] for one key:
    the interval [lo, hi) is halved until it is empty; [fuel] bounds the
    number of halvings. *)
Fixpoint bisect_left (fuel : nat) (a : list Q) (v : Q) (lo hi : nat) : nat :=
  match fuel with
  | O => lo
  | S fuel' =>
      if lo <? hi then
        let mid := lo + (hi - lo) / 2 in
        if Qlt_le_dec (nth mid a 0%Q) v
        then bisect_left fuel' a v (mid + 1) hi
        else bisect_left fuel' a v lo mid
      else lo
  end.

(** One key: the search runs on the whole array; [length a] halvings are
    always enough (lemma [bisect_left_spec] below). *)
Definition searchsorted1 (a : list Q) (v : Q) : nat :=
  bisect_left (length a) a v 0 (length a).

(** [np.searchsorted(a, vs)]: one insertion index per key. *)
Definition searchsorted (a vs : list Q) : list nat :=
  map (searchsorted1 a) vs.

(** [a[i:j] = v] on a one-dimensional array, for non-negative [i] and [j]:
    the slice is clipped to the array; [v] must have the slice's length, or
    length one (it is then broadcast); anything else is the ValueError
    "could not broadcast input array". *)
Definition setitem_slice (a : list R) (i j : nat) (v : list R)
  : result (list R) :=
  let n := length a in
  let lo := Nat.min i n in
  let hi := Nat.max lo (Nat.min j n) in
  if length v =? hi - lo then
    Ok (firstn lo a ++ v ++ skipn hi a)
  else if length v =? 1 then
    Ok (firstn lo a ++ repeat (hd 0%R v) (hi - lo) ++ skipn hi a)
  else Raise BroadcastError.

(** An n-dimensional array: its shape and its values in row-major order. *)
Record ndarray : Type := mk_ndarray {
  shape : list nat;
  data : list R
}.

(** [np.tile(v, (t, l, 1))] of a one-dimensional [v]: shape
    [(t, l, len(v))], every row a copy of [v]. *)
Definition tile (v : list R) (t l : nat) : ndarray :=
  {| shape := [t; l; length v];
     data := concat (repeat v (t * l)) |}.

Fixpoint map2 (f : R -> R -> R) (xs ys : list R) : list R :=
  match xs, ys with
  | x :: xs', y :: ys' => f x y :: map2 f xs' ys'
  | _, _ => []
  end.

(** [a * b] on arrays of equal shape: the elementwise product.  (Arrays of
    different shapes are not multiplied here: the only product the function
    forms is of the field with a tiling of its own shape.)  The product is
    the one of the reals: what is proved of it by the laws of the reals
    (associativity, [x * 0 = 0]) need not hold of binary64 values, see
    [f64.windowed]. *)
Definition multiply (a b : ndarray) : result ndarray :=
  if list_eq_dec Nat.eq_dec (shape a) (shape b) then
    Ok {| shape := shape a; data := map2 Rmult (data a) (data b) |}
  else Raise BroadcastError.

End np.

(** The same product on binary64 values, and the quotient whose ceiling is
    the length of [np.arange]: the two places where the rounding of the
    source shows. *)
Module f64.

Fixpoint map2 (f : float -> float -> float) (xs ys : list float)
  : list float :=
  match xs, ys with
  | x :: xs', y :: ys' => f x y :: map2 f xs' ys'
  | _, _ => []
  end.

(** Lines 35 and 38: the values of [field * np.tile(mask, (t, l, 1))]. *)
Definition windowed (field mask : list float) (t l : nat) : list float :=
  map2 PrimFloat.mul field (concat (repeat mask (t * l))).

(** [np.arange(start, stop, step)] has [ceil((stop - start)/step)]
    values. *)
Definition arange_quotient (start stop step : float) : float :=
  PrimFloat.div (PrimFloat.sub stop start) step.

(** Lines 18, 19 and 29 for a float centre on an axis of spacing [res]: the
    quotient for [np.arange(left_ext, right_ext + res, res)]. *)
Definition candidates_quotient (center_lon half res : float) : float :=
  arange_quotient (PrimFloat.sub center_lon half)
                  (PrimFloat.add (PrimFloat.add center_lon half) res) res.

End f64.

(** ** Part 2: the labelled array and the function *)

(** A Python number: the window centre may be passed as an [int] or as a
    [float]; the two differ in how the description prints them. *)
Inductive pynum : Type :=
| PyInt (z : Z)
| PyFloat (q : Q).

Definition num_value (x : pynum) : Q :=
  match x with
  | PyInt z => inject_Z z
  | PyFloat q => q
  end.

(** [abs(x)]. *)
Definition py_abs (x : pynum) : pynum :=
  match x with
  | PyInt z => PyInt (Z.abs z)
  | PyFloat q => PyFloat (Qabs q)
  end.

(** [x >= 0]. *)
Definition py_nonneg (x : pynum) : bool := Qle_bool 0%Q (num_value x).

(** [str(z)] for an [int]. *)
Definition str_int (z : Z) : string := NilZero.string_of_int (Z.to_int z).

(** A Python [dict] with string keys, in insertion order. *)
Definition dict : Type := list (string * string).

Fixpoint dict_get (d : dict) (k : string) : option string :=
  match d with
  | [] => None
  | (k', v) :: d' => if String.eqb k' k then Some v else dict_get d' k
  end.

(** [d[k] = v], as [d.update({k: v})] does it: an existing key keeps its
    place, a new one is appended. *)
Fixpoint dict_set (d : dict) (k v : string) : dict :=
  match d with
  | [] => [(k, v)]
  | (k', v') :: d' =>
      if String.eqb k' k then (k, v) :: d' else (k', v') :: dict_set d' k v
  end.

(** [x[i]] for [i >= 0] and [x[-1]] on a one-dimensional sequence. *)
Definition item {A : Type} (x : list A) (i : nat) : result A :=
  of_option IndexError (nth_error x i).

Definition item_last {A : Type} (x : list A) : result A :=
  of_option IndexError (nth_error x (length x - 1)).

(** An [xarray.DataArray]: name, dimension names, coordinate labels by
    name, the values, and the attributes. *)
Record DataArray : Type := mk_DataArray {
  name : option string;
  dims : list string;
  coords : list (string * list Q);
  values : np.ndarray;
  attrs : dict
}.

Fixpoint coord (cs : list (string * list Q)) (k : string) : option (list Q) :=
  match cs with
  | [] => None
  | (k', v) :: cs' => if String.eqb k' k then Some v else coord cs' k
  end.

(** [da.lon] for an array whose longitudes are a coordinate.  (xarray
    resolves the attribute [lon] also from a dimension [lon] that has no
    coordinate, and from an entry [lon] of [attrs]; such arrays are not
    [well_formed] below, and the statements about a missing coordinate
    exclude them by hypothesis.) *)
Definition getattr_lon (da : DataArray) : result (list Q) :=
  of_option AttributeError (coord (coords da) "lon").

(** What [xarray] guarantees of a three-dimensional array whose last
    dimension carries the coordinate [lon]: three dimension names, a shape
    [(t, l, n)] with [n] the number of longitudes, and [t*l*n] values. *)
Definition well_formed (da : DataArray) : bool :=
  match coord (coords da) "lon", np.shape (values da) with
  | Some lon, [t; l; n] =>
      (length (dims da) =? 3) && (n =? length lon)
      && (length (np.data (values da)) =? t * l * n)
  | _, _ => false
  end.

(** The axis has the constant spacing [d]: every longitude is its
    predecessor plus [d].  For [d > 0] such an axis is strictly ascending. *)
Definition uniformly_spaced (lon : list Q) (d : Q) : bool :=
  forallb (fun k => Qeq_bool (nth (S k) lon 0 - nth k lon 0)%Q d)
          (seq 0 (length lon - 1)).

(** Lines 18-19 and 22: the window's two ends and the grid spacing. *)
Definition left_ext (center_lon : pynum) (window_size : Z) : Q :=
  (num_value center_lon - inject_Z (window_size ÷ 2))%Q.

Definition right_ext (center_lon : pynum) (window_size : Z) : Q :=
  (num_value center_lon + inject_Z (window_size ÷ 2))%Q.

Definition lon_resolution (lon : list Q) : result Q :=
  let* lon0 := item lon 0 in
  let* lon1 := item lon 1 in
  Ok (Qabs (lon0 - lon1)).

(** Line 29, inner call: the candidate coordinates
    [np.arange(left_ext, right_ext + lon_resolution, lon_resolution)]. *)
Definition candidates (lon : list Q) (center_lon : pynum) (window_size : Z)
  : result (list Q) :=
  let* res := lon_resolution lon in
  np.arange (left_ext center_lon window_size)
            (right_ext center_lon window_size + res)%Q res.

(** Line 29: [lon_indices]. *)
Definition lon_indices (lon : list Q) (center_lon : pynum) (window_size : Z)
  : result (list nat) :=
  let* cs := candidates lon center_lon window_size in
  Ok (np.searchsorted lon cs).

(** Lines 25-32: the mask [hann_filter] after the slice assignment. *)
Definition hann_filter (lon : list Q) (center_lon : pynum) (window_size : Z)
  : result (list R) :=
  let* idx := lon_indices lon center_lon window_size in
  let hann_window := np.hanning window_size in
  let zeros := np.zeros (length lon) in
  let* first := item idx 0 in
  let* last := item_last idx in
  np.setitem_slice zeros first (last + 1) hann_window.

Section Environment.

(** Two things the function takes from its environment: how Python prints a
    [float] ([repr], not part of this repository), and xarray's option
    [keep_attrs], which decides whether the product [da.copy() * mask]
    carries the attributes of [da] (older releases drop them by default,
    newer ones keep them). *)
Variable float_repr : Q -> string.
Variable keep_attrs : bool.

(** [f'{x}']. *)
Definition format_num (x : pynum) : string :=
  match x with
  | PyInt z => str_int z
  | PyFloat q => float_repr q
  end.

(** Lines 45-46: the text of the [description] attribute. *)
Definition description (center_lon : pynum) (window_size : Z) : string :=
  if py_nonneg center_lon then
    ("Hanning window of size " ++ str_int window_size ++ " applied at "
       ++ format_num center_lon ++ "E")%string
  else
    ("Hanning window of size " ++ str_int window_size ++ " applied at "
       ++ format_num (py_abs center_lon) ++ "W")%string.

(** The function. *)
Definition apply_hann_window_lon
  (da : DataArray) (center_lon : pynum) (window_size : Z) : result DataArray :=
  let* lon := getattr_lon da in
  let* mask := hann_filter lon center_lon window_size in
  let* t := item (np.shape (values da)) 0 in
  let* l := item (np.shape (values da)) 1 in
  let hann_filter_full := np.tile mask t l in
  let* windowed := np.multiply (values da) hann_filter_full in
  Ok {| name := name da;
        dims := dims da;
        coords := coords da;
        values := windowed;
        attrs := dict_set (if keep_attrs then attrs da else [])
                          "description"
                          (description center_lon window_size) |}.

End Environment.

(** ** Part 3: the function over an object store

    Python arrays and dictionaries are objects with identity, and two lines
    of the function write in place: the slice assignment into [hann_filter]
    (line 32) and [attrs.update] (line 44).  This part embeds the function a
    second time, over a store of objects, so that what is written and what
    is shared is explicit.  Coordinate labels are kept as values: xarray
    holds them in immutable indexes. *)

Module st.

Definition loc : Type := nat.

(** A [DataArray] object: its values and its attributes are references. *)
Record labelled : Type := mk_labelled {
  l_name : option string;
  l_dims : list string;
  l_coords : list (string * list Q);
  l_values : loc;
  l_attrs : loc
}.

Inductive object : Type :=
| Buffer (a : np.ndarray)   (* a numpy array *)
| Attrs (d : dict)          (* a dictionary of attributes *)
| Labelled (x : labelled).  (* a DataArray *)

(** The store lists its objects newest first; the location of an object is
    the number of objects allocated before it. *)
Definition store : Type := list object.

Fixpoint lookup (s : store) (l : loc) : option object :=
  match s with
  | [] => None
  | o :: s' => if l =? length s' then Some o else lookup s' l
  end.

Fixpoint update (s : store) (l : loc) (o : object) : store :=
  match s with
  | [] => []
  | o' :: s' => if l =? length s' then o :: s' else o' :: update s' l o
  end.

(** Computations: a store in, a result and a store out.  An exception leaves
    the store as it was when it was raised. *)
Definition M (A : Type) : Type := store -> result A * store.

Definition ret {A : Type} (a : A) : M A := fun s => (Ok a, s).

Definition mbind {A B : Type} (m : M A) (k : A -> M B) : M B :=
  fun s =>
    match m s with
    | (Ok a, s') => k a s'
    | (Raise e, s') => (Raise e, s')
    end.

Declare Scope st_scope.
Delimit Scope st_scope with st.
Notation "x <- m ;; k" := (mbind m (fun x => k))
  (at level 61, m at next level, right associativity) : st_scope.
Notation "m ;; k" := (mbind m (fun _ => k))
  (at level 61, right associativity) : st_scope.
Open Scope st_scope.

Definition lift {A : Type} (r : result A) : M A := fun s => (r, s).

Definition alloc (o : object) : M loc := fun s => (Ok (length s), o :: s).

Definition read_buffer (l : loc) : M np.ndarray :=
  fun s =>
    match lookup s l with
    | Some (Buffer a) => (Ok a, s)
    | _ => (Raise TypeError, s)
    end.

Definition read_attrs (l : loc) : M dict :=
  fun s =>
    match lookup s l with
    | Some (Attrs d) => (Ok d, s)
    | _ => (Raise TypeError, s)
    end.

Definition read_labelled (l : loc) : M labelled :=
  fun s =>
    match lookup s l with
    | Some (Labelled x) => (Ok x, s)
    | _ => (Raise TypeError, s)
    end.

Definition write (l : loc) (o : object) : M unit :=
  fun s => (Ok tt, update s l o).

(** A one-dimensional array. *)
Definition vector (v : list R) : np.ndarray :=
  {| np.shape := [length v]; np.data := v |}.

(** [target[i:j] = v], in place. *)
Definition setitem_slice (target : loc) (i j : nat) (v : loc) : M unit :=
  a <- read_buffer target ;;
  w <- read_buffer v ;;
  r <- lift (np.setitem_slice (np.data a) i j (np.data w)) ;;
  write target (Buffer {| np.shape := np.shape a; np.data := r |}).

(** [da.copy()]: a new object with a copy of the values and of the
    attributes. *)
Definition copy (da : loc) : M loc :=
  x <- read_labelled da ;;
  a <- read_buffer (l_values x) ;;
  d <- read_attrs (l_attrs x) ;;
  va <- alloc (Buffer a) ;;
  vd <- alloc (Attrs d) ;;
  alloc (Labelled {| l_name := l_name x; l_dims := l_dims x;
                     l_coords := l_coords x; l_values := va; l_attrs := vd |}).

(** [xr.DataArray(data=d, name=.., dims=.., coords=..)] for a [DataArray]
    [d]: a new object on the values of [d], with a new dictionary holding
    the attributes of [d]. *)
Definition new_DataArray (d : loc) (nm : option string) (ds : list string)
  (cs : list (string * list Q)) : M loc :=
  x <- read_labelled d ;;
  at_ <- read_attrs (l_attrs x) ;;
  vd <- alloc (Attrs at_) ;;
  alloc (Labelled {| l_name := nm; l_dims := ds; l_coords := cs;
                     l_values := l_values x; l_attrs := vd |}).

(** [da.attrs.update({k: v})], in place. *)
Definition attrs_update (da : loc) (k v : string) : M unit :=
  x <- read_labelled da ;;
  d <- read_attrs (l_attrs x) ;;
  write (l_attrs x) (Attrs (dict_set d k v)).

Section Environment.

Variable float_repr : Q -> string.
Variable keep_attrs : bool.

(** [da * b] for a numpy array [b]: a new object with new values; its
    attributes are a new dictionary, those of [da] under [keep_attrs]. *)
Definition mul (da b : loc) : M loc :=
  x <- read_labelled da ;;
  a <- read_buffer (l_values x) ;;
  d <- read_attrs (l_attrs x) ;;
  b' <- read_buffer b ;;
  p <- lift (np.multiply a b') ;;
  vp <- alloc (Buffer p) ;;
  vd <- alloc (Attrs (if keep_attrs then d else [])) ;;
  alloc (Labelled {| l_name := l_name x; l_dims := l_dims x;
                     l_coords := l_coords x; l_values := vp; l_attrs := vd |}).

(** The function, line by line. *)
Definition apply_hann_window_lon
  (da : loc) (center_lon : pynum) (window_size : Z) : M loc :=
  x <- read_labelled da ;;
  lon <- lift (of_option AttributeError (coord (l_coords x) "lon")) ;;
  res <- lift (lon_resolution lon) ;;
  hann_window <- alloc (Buffer (vector (np.hanning window_size))) ;;
  hann_filter <- alloc (Buffer (vector (np.zeros (length lon)))) ;;
  cs <- lift (np.arange (left_ext center_lon window_size)
                        (right_ext center_lon window_size + res)%Q res) ;;
  let lon_indices := np.searchsorted lon cs in
  first <- lift (item lon_indices 0) ;;
  last <- lift (item_last lon_indices) ;;
  setitem_slice hann_filter first (last + 1) hann_window ;;
  a <- read_buffer (l_values x) ;;
  t <- lift (item (np.shape a) 0) ;;
  l <- lift (item (np.shape a) 1) ;;
  mask <- read_buffer hann_filter ;;
  hann_filter_full <- alloc (Buffer (np.tile (np.data mask) t l)) ;;
  cp <- copy da ;;
  windowed_da <- mul cp hann_filter_full ;;
  out <- new_DataArray windowed_da (l_name x) (l_dims x) (l_coords x) ;;
  attrs_update out "description"
               (description float_repr center_lon window_size) ;;
  ret out.

End Environment.

(** The array a reference denotes: the object with its values and
    attributes read out of the store. *)
Definition snapshot (s : store) (l : loc) : option DataArray :=
  match lookup s l with
  | Some (Labelled x) =>
      match lookup s (l_values x), lookup s (l_attrs x) with
      | Some (Buffer a), Some (Attrs d) =>
          Some {| name := l_name x; dims := l_dims x; coords := l_coords x;
                  values := a; attrs := d |}
      | _, _ => None
      end
  | _ => None
  end.

(** An array put on top of a store: its values, its attributes and the
    array itself are the three newest objects.  [store_of x] holds [x] and
    nothing else, at location 2. *)
Definition store_with (s : store) (x : DataArray) : store :=
  [ Labelled {| l_name := name x; l_dims := dims x; l_coords := coords x;
                l_values := length s; l_attrs := S (length s) |};
    Attrs (attrs x);
    Buffer (values x) ] ++ s.

Definition store_of (x : DataArray) : store := store_with [] x.

Close Scope st_scope.

End st.

(** ** Sample data *)

(** The axis of the spec's scenarios: [0, 1, ..., 359]. *)
Definition lon360 : list Q := map (fun i => inject_Z (Z.of_nat i)) (seq 0 360).


(** An axis with a spacing of two degrees: [0, 2, ..., 358]. *)
Definition lon180 : list Q :=
  map (fun i => inject_Z (2 * Z.of_nat i)) (seq 0 180).

(** An axis from 180 degrees west to 179 degrees east: [-180, ..., 179]. *)
Definition lon_west_east : list Q :=
  map (fun i => inject_Z (Z.of_nat i - 180)) (seq 0 360).

(** [s] contains [sub]. *)
Definition contains (s sub : string) : Prop :=
  exists pre post, s = (pre ++ sub ++ post)%string.

(** How Python prints a float that is a whole number below [1e16]; the
    examples instantiate [float_repr] with it. *)
Definition repr_whole (q : Q) : string := (str_int (Qfloor q) ++ ".0")%string.

(** A field with one time, one latitude and the given longitudes, every
    value [1]. *)
Definition ones_field (lon : list Q) : DataArray :=
  {| name := Some "field";
     dims := ["time"; "lat"; "lon"];
     coords := [("time", [0%Q]); ("lat", [0%Q]); ("lon", lon)];
     values := {| np.shape := [1; 1; length lon];
                  np.data := repeat 1%R (length lon) |};
     attrs := [("units", "K")] |}.

(** ** Vocabulary of the statements *)

(** An ascending axis (no entry is smaller than an earlier one). *)
Definition ascending (a : list Q) : Prop :=
  forall i j, i <= j -> j < length a -> (nth i a 0 <= nth j a 0)%Q.

(** What [side='left'] promises of an index [r]: everything before it is
    smaller than the key, nothing from it on is. *)
Definition insertion_point (a : list Q) (v : Q) (r : nat) : Prop :=
  r <= length a
  /\ (forall k, k < r -> (nth k a 0 < v)%Q)
  /\ (forall k, r <= k -> k < length a -> (v <= nth k a 0)%Q).

(** Every longitude is the first one plus its index. *)
Definition unit_spaced (lon : list Q) : Prop :=
  forall k, k < length lon ->
    (nth k lon 0 == nth 0 lon 0 + inject_Z (Z.of_nat k))%Q.

(** The slice of [a[i:j]] after clipping: [lo] and [hi]. *)
Definition slice_lo (n i : nat) : nat := Nat.min i n.
Definition slice_hi (n i j : nat) : nat := Nat.max (Nat.min i n) (Nat.min j n).

(** The mask of the scenario: zero everywhere except at 8..12. *)
Definition mask_10_5 : list R :=
  repeat 0%R 8 ++ [0; 1/2; 1; 1/2; 0]%R ++ repeat 0%R 347.

(** The number of candidates [np.arange] steps through on an axis of
    spacing [d]: [ceil((2 * (window_size div 2) + d) / d)]. *)
Definition grid_steps (window_size : Z) (d : Q) : nat :=
  Z.to_nat (Qceiling ((inject_Z (2 * (window_size ÷ 2)) + d) / d)%Q).


(** A short axis: [0, 1, 2]. *)
Definition lon3 : list Q := [0; 1; 2]%Q.

(** A field of three values whose last dimension is [x]: it has no
    coordinate, dimension or attribute named [lon]. *)
Definition unlabelled_field : DataArray :=
  {| name := Some "field";
     dims := ["time"; "lat"; "x"];
     coords := [("time", [0%Q]); ("lat", [0%Q])];
     values := {| np.shape := [1; 1; 3]; np.data := repeat 1%R 3 |};
     attrs := [("units", "K")] |}.

(** Two binary64 values: the doubles nearest to 0.1 and to 0.75 (the second
    is exact), and the centre 7.3. *)
Definition tenth : float := (1 / 10)%float.
Definition three_quarters : float := (3 / 4)%float.
Definition centre_7_3 : float := (73 / 10)%float.

(** A number that binary64 holds exactly and that stays exact under the
    sums and differences of lines 18-29: an integer of magnitude at most
    [2^20]. *)
Definition whole (q : Q) : bool :=
  Qeq_bool q (inject_Z (Qfloor q)) && Qle_bool (Qabs q) (inject_Z (2 ^ 20)).

(** Inputs on which lines 18-29 compute in binary64 what they compute here:
    whole longitudes, a whole centre, a window size of moderate magnitude.
    (The one quotient, in [np.arange], is then a quotient of integers below
    [2^23], and its rounding never reaches the next integer.) *)
Definition whole_inputs (lon : list Q) (center_lon : pynum) (window_size : Z)
  : bool :=
  forallb whole lon && whole (num_value center_lon)
  && (Z.abs window_size <=? 2 ^ 20)%Z.

(** * Properties *)

(** ** The Hann curve *)

Lemma arange_int_hanning (M : Z) :
  (1 <= M)%Z ->
  np.arange_int (1 - M) M 2
  = map (fun i => (1 - M + Z.of_nat i * 2)%Z) (seq 0 (Z.to_nat M)).
Proof.
  intros HM. unfold np.arange_int. do 2 f_equal.
  replace (M - (1 - M) + 2 - 1)%Z with (M * 2)%Z by lia.
  now rewrite Z.div_mul.
Qed.

Lemma hanning_length (M : Z) : length (np.hanning M) = Z.to_nat M.
Proof.
  unfold np.hanning.
  destruct (Z.ltb_spec M 1) as [Hlt | Hge].
  - simpl. lia.
  - destruct (Z.eqb_spec M 1) as [-> | Hne].
    + reflexivity.
    + rewrite arange_int_hanning by lia.
      now rewrite !length_map, length_seq.
Qed.

(** Every sample of the curve is [1/2 + 1/2 * cos t] for some [t], or [1]. *)
Lemma hanning_bounds (M : Z) :
  Forall (fun x => (0 <= x <= 1)%R) (np.hanning M).
Proof.
  unfold np.hanning.
  destruct (M <? 1)%Z; [constructor |].
  destruct (M =? 1)%Z.
  - constructor; [lra | constructor].
  - apply Forall_forall. intros x Hx.
    apply in_map_iff in Hx. destruct Hx as [n [<- _]].
    pose proof (COS_bound (PI * IZR n / IZR (M - 1))) as [Hlo Hhi].
    lra.
Qed.

Lemma hanning_nth (M : Z) (i : nat) (d : R) :
  (2 <= M)%Z -> i < Z.to_nat M ->
  nth i (np.hanning M) d
  = (1/2 + 1/2 * cos (PI * IZR (1 - M + Z.of_nat i * 2) / IZR (M - 1)))%R.
Proof.
  intros HM Hi. unfold np.hanning.
  destruct (Z.ltb_spec M 1); [lia |].
  destruct (Z.eqb_spec M 1); [lia |].
  rewrite arange_int_hanning by lia.
  rewrite map_map.
  rewrite nth_indep with (d' := (fun k => (1/2 + 1/2 * cos (PI * IZR (1 - M + Z.of_nat k * 2) / IZR (M - 1)))%R) 0)
    by now rewrite length_map, length_seq.
  rewrite map_nth with (f := fun k => (1/2 + 1/2 * cos (PI * IZR (1 - M + Z.of_nat k * 2) / IZR (M - 1)))%R).
  now rewrite seq_nth.
Qed.

(** The curve in the spec's form: [0.5 - 0.5 cos(2 pi i / (M - 1))]. *)
Lemma hanning_nth_spec_form (M : Z) (i : nat) (d : R) :
  (2 <= M)%Z -> i < Z.to_nat M ->
  nth i (np.hanning M) d
  = (1/2 - 1/2 * cos (2 * PI * INR i / IZR (M - 1)))%R.
Proof.
  intros HM Hi. rewrite hanning_nth by assumption.
  assert (Hne : (IZR (M - 1) <> 0)%R) by (apply not_0_IZR; lia).
  replace (PI * IZR (1 - M + Z.of_nat i * 2) / IZR (M - 1))%R
    with (2 * PI * INR i / IZR (M - 1) - PI)%R.
  - rewrite cos_minus, cos_PI, sin_PI. lra.
  - rewrite plus_IZR, mult_IZR, minus_IZR, <- INR_IZR_INZ.
    rewrite minus_IZR in Hne |- *. field. exact Hne.
Qed.

(** Both ends of a curve of two or more samples are zero. *)
Lemma hanning_first (M : Z) (d : R) :
  (2 <= M)%Z -> nth 0 (np.hanning M) d = 0%R.
Proof.
  intros HM. rewrite hanning_nth_spec_form by lia.
  simpl INR. replace (2 * PI * 0 / IZR (M - 1))%R with 0%R.
  - rewrite cos_0. lra.
  - unfold Rdiv. ring.
Qed.

Lemma hanning_last (M : Z) (d : R) :
  (2 <= M)%Z -> nth (Z.to_nat M - 1) (np.hanning M) d = 0%R.
Proof.
  intros HM. rewrite hanning_nth_spec_form by lia.
  assert (Hne : (IZR (M - 1) <> 0)%R) by (apply not_0_IZR; lia).
  replace (2 * PI * INR (Z.to_nat M - 1) / IZR (M - 1))%R with (2 * PI)%R.
  - rewrite cos_2PI. lra.
  - rewrite INR_IZR_INZ.
    replace (Z.of_nat (Z.to_nat M - 1)) with (M - 1)%Z by lia.
    field. exact Hne.
Qed.

(** The five-sample curve. *)
Lemma hanning_5 : np.hanning 5 = [0; 1/2; 1; 1/2; 0]%R.
Proof.
  unfold np.hanning. simpl.
  replace (PI * -4 / 4)%R with (- PI)%R by lra.
  replace (PI * -2 / 4)%R with (- (PI / 2))%R by lra.
  replace (PI * 0 / 4)%R with 0%R by lra.
  replace (PI * 2 / 4)%R with (PI / 2)%R by lra.
  replace (PI * 4 / 4)%R with PI by lra.
  rewrite !cos_neg, cos_PI, cos_PI2, cos_0.
  repeat (apply (f_equal2 cons); [lra |]). reflexivity.
Qed.

(** ** The binary search *)

Lemma bisect_left_step (fuel : nat) (a : list Q) (v : Q) (lo hi : nat) :
  np.bisect_left (S fuel) a v lo hi
  = if lo <? hi then
      if Qlt_le_dec (nth (lo + (hi - lo) / 2) a 0%Q) v
      then np.bisect_left fuel a v (lo + (hi - lo) / 2 + 1) hi
      else np.bisect_left fuel a v lo (lo + (hi - lo) / 2)
    else lo.
Proof. reflexivity. Qed.

Lemma bisect_left_spec (a : list Q) (v : Q) :
  ascending a ->
  forall fuel lo hi,
    lo <= hi -> hi <= length a -> hi - lo <= fuel ->
    (forall k, k < lo -> (nth k a 0 < v)%Q) ->
    (forall k, hi <= k -> k < length a -> (v <= nth k a 0)%Q) ->
    insertion_point a v (np.bisect_left fuel a v lo hi).
Proof.
  intros Hasc. induction fuel as [| fuel IH]; intros lo hi Hle Hhi Hfuel Hlo Hup.
  - simpl. assert (lo = hi) by lia. subst hi.
    repeat split; auto; lia.
  - rewrite bisect_left_step. destruct (Nat.ltb_spec lo hi) as [Hlt | Hge].
    + assert (Hmid : lo <= lo + (hi - lo) / 2 < hi).
      { pose proof (Nat.div_lt (hi - lo) 2). lia. }
      set (mid := lo + (hi - lo) / 2) in *.
      destruct (Qlt_le_dec (nth mid a 0%Q) v) as [Hsmall | Hbig].
      * apply IH; try lia; auto.
        intros k Hk. apply Qle_lt_trans with (nth mid a 0%Q); [| exact Hsmall].
        apply Hasc; lia.
      * apply IH; try lia; auto.
        intros k Hk Hkn. apply Qle_trans with (nth mid a 0%Q); [exact Hbig |].
        apply Hasc; lia.
    + assert (lo = hi) by lia. subst hi.
      repeat split; auto; lia.
Qed.

Lemma searchsorted1_spec (a : list Q) (v : Q) :
  ascending a -> insertion_point a v (np.searchsorted1 a v).
Proof.
  intros Hasc. unfold np.searchsorted1.
  apply bisect_left_spec; auto; intros; lia.
Qed.

(** On an ascending axis the insertion point is unique, so the search is
    determined by its specification. *)
Lemma insertion_point_unique (a : list Q) (v : Q) (r p : nat) :
  insertion_point a v r -> insertion_point a v p -> r = p.
Proof.
  intros (Hr & Hr1 & Hr2) (Hp & Hp1 & Hp2).
  destruct (Nat.lt_trichotomy r p) as [Hlt | [Heq | Hgt]]; auto; exfalso.
  - apply (Qlt_not_le _ _ (Hp1 r Hlt)). apply Hr2; lia.
  - apply (Qlt_not_le _ _ (Hr1 p Hgt)). apply Hp2; lia.
Qed.

Lemma searchsorted1_unique (a : list Q) (v : Q) (p : nat) :
  ascending a -> insertion_point a v p -> np.searchsorted1 a v = p.
Proof.
  intros Hasc Hp.
  apply insertion_point_unique with (a := a) (v := v); auto.
  now apply searchsorted1_spec.
Qed.

(** The search never leaves [0 .. len(a)], sorted axis or not. *)
Lemma bisect_left_range (a : list Q) (v : Q) (fuel lo hi : nat) :
  lo <= hi -> lo <= np.bisect_left fuel a v lo hi <= hi.
Proof.
  revert lo hi. induction fuel as [| fuel IH]; intros lo hi Hle.
  - simpl. lia.
  - rewrite bisect_left_step.
    destruct (Nat.ltb_spec lo hi) as [Hlt | Hge]; [| lia].
    pose proof (Nat.div_lt (hi - lo) 2).
    destruct (Qlt_le_dec _ v).
    + specialize (IH (lo + (hi - lo) / 2 + 1) hi). lia.
    + specialize (IH lo (lo + (hi - lo) / 2)). lia.
Qed.

Lemma searchsorted1_range (a : list Q) (v : Q) :
  np.searchsorted1 a v <= length a.
Proof.
  unfold np.searchsorted1.
  pose proof (bisect_left_range a v (length a) 0 (length a)). lia.
Qed.

(** ** Inversion of the result monad and of the function's steps *)

Lemma bind_Ok {A B : Type} (r : result A) (k : A -> result B) (b : B) :
  bind r k = Ok b -> exists a, r = Ok a /\ k a = Ok b.
Proof. destruct r as [a | e]; simpl; [eauto | discriminate]. Qed.

Lemma of_option_Ok {A : Type} (e : exn) (o : option A) (a : A) :
  of_option e o = Ok a -> o = Some a.
Proof. destruct o; simpl; congruence. Qed.

Ltac inv_bind H :=
  let a := fresh "a" in
  let Ha := fresh "H" a in
  apply bind_Ok in H; destruct H as [a [Ha H]].

Lemma setitem_slice_Ok (a : list R) (i j : nat) (v r : list R) :
  np.setitem_slice a i j v = Ok r ->
  let lo := slice_lo (length a) i in
  let hi := slice_hi (length a) i j in
  (length v = hi - lo /\ r = firstn lo a ++ v ++ skipn hi a)
  \/ (length v = 1 /\ length v <> hi - lo
      /\ r = firstn lo a ++ repeat (hd 0%R v) (hi - lo) ++ skipn hi a).
Proof.
  unfold np.setitem_slice, slice_lo, slice_hi. intros H.
  destruct (Nat.eqb_spec (length v)
              (Nat.max (Nat.min i (length a)) (Nat.min j (length a))
               - Nat.min i (length a))) as [Heq | Hne].
  - left. split; [exact Heq | congruence].
  - destruct (Nat.eqb_spec (length v) 1) as [H1 | H1]; [| discriminate].
    right. repeat split; auto; congruence.
Qed.

Lemma setitem_slice_length (a : list R) (i j : nat) (v r : list R) :
  np.setitem_slice a i j v = Ok r -> length r = length a.
Proof.
  intros H. apply setitem_slice_Ok in H.
  unfold slice_lo, slice_hi in H.
  destruct H as [[Hlen ->] | [_ [_ ->]]];
    rewrite !length_app, ?repeat_length, length_firstn, length_skipn; lia.
Qed.

Lemma Forall_firstn {A : Type} (P : A -> Prop) (n : nat) (l : list A) :
  Forall P l -> Forall P (firstn n l).
Proof.
  intros H. revert n. induction H as [| x l Hx Hl IH]; intros [| n]; simpl;
    constructor; auto.
Qed.

Lemma Forall_skipn {A : Type} (P : A -> Prop) (n : nat) (l : list A) :
  Forall P l -> Forall P (skipn n l).
Proof.
  intros H. revert n. induction H as [| x l Hx Hl IH]; intros [| n]; simpl;
    auto.
Qed.

(** Every entry of the array after the assignment is an old entry or an
    entry of the assigned value. *)
Lemma setitem_slice_Forall (P : R -> Prop) (a : list R) (i j : nat)
  (v r : list R) :
  Forall P a -> Forall P v -> np.setitem_slice a i j v = Ok r -> Forall P r.
Proof.
  intros Ha Hv H. apply setitem_slice_Ok in H.
  destruct H as [[_ ->] | [H1 [_ ->]]].
  - repeat (apply Forall_app; split); auto using Forall_firstn, Forall_skipn.
  - repeat (apply Forall_app; split); auto using Forall_firstn, Forall_skipn.
    apply Forall_forall. intros x Hx. apply repeat_spec in Hx. subst x.
    destruct v as [| v0 [| ? ?]]; try discriminate. now inversion Hv.
Qed.

(** What [hann_filter] went through when it returned a mask. *)
Lemma hann_filter_Ok (lon : list Q) (c : pynum) (ws : Z) (mask : list R) :
  hann_filter lon c ws = Ok mask ->
  exists idx first last,
    lon_indices lon c ws = Ok idx
    /\ item idx 0 = Ok first
    /\ item_last idx = Ok last
    /\ np.setitem_slice (np.zeros (length lon)) first (last + 1)
                        (np.hanning ws) = Ok mask.
Proof.
  unfold hann_filter. intros H.
  inv_bind H. inv_bind H. inv_bind H. eauto 10.
Qed.

Lemma hann_filter_length (lon : list Q) (c : pynum) (ws : Z) (mask : list R) :
  hann_filter lon c ws = Ok mask -> length mask = length lon.
Proof.
  intros H. apply hann_filter_Ok in H.
  destruct H as (idx & first & last & _ & _ & _ & H).
  apply setitem_slice_length in H. unfold np.zeros in H.
  now rewrite repeat_length in H.
Qed.

(** What [apply_hann_window_lon] went through when it returned an array. *)
Lemma apply_Ok (repr : Q -> string) (keep : bool) (da : DataArray)
  (c : pynum) (ws : Z) (out : DataArray) :
  apply_hann_window_lon repr keep da c ws = Ok out ->
  exists lon mask t l windowed,
    coord (coords da) "lon" = Some lon
    /\ hann_filter lon c ws = Ok mask
    /\ nth_error (np.shape (values da)) 0 = Some t
    /\ nth_error (np.shape (values da)) 1 = Some l
    /\ np.multiply (values da) (np.tile mask t l) = Ok windowed
    /\ out = {| name := name da; dims := dims da; coords := coords da;
                values := windowed;
                attrs := dict_set (if keep then attrs da else [])
                                  "description" (description repr c ws) |}.
Proof.
  unfold apply_hann_window_lon, getattr_lon, item. intros H.
  inv_bind H. inv_bind H. inv_bind H. inv_bind H. inv_bind H.
  apply of_option_Ok in Ha, Ha1, Ha2.
  exists a, a0, a1, a2, a3. repeat split; auto. congruence.
Qed.

Lemma multiply_Ok (a b p : np.ndarray) :
  np.multiply a b = Ok p ->
  np.shape a = np.shape b
  /\ p = {| np.shape := np.shape a;
            np.data := np.map2 Rmult (np.data a) (np.data b) |}.
Proof.
  unfold np.multiply. destruct (list_eq_dec Nat.eq_dec _ _); [| discriminate].
  intros H. split; congruence.
Qed.

Lemma map2_length (f : R -> R -> R) (xs ys : list R) :
  length (np.map2 f xs ys) = Nat.min (length xs) (length ys).
Proof.
  revert ys. induction xs as [| x xs IH]; intros [| y ys]; simpl; auto.
Qed.

Lemma concat_repeat_length (v : list R) (m : nat) :
  length (concat (repeat v m)) = m * length v.
Proof.
  induction m as [| m IH]; simpl; [reflexivity |].
  now rewrite length_app, IH.
Qed.

Lemma tile_length (v : list R) (t l : nat) :
  length (np.data (np.tile v t l)) = t * l * length v.
Proof. apply concat_repeat_length. Qed.

Lemma well_formed_inv (da : DataArray) :
  well_formed da = true ->
  exists lon t l,
    coord (coords da) "lon" = Some lon
    /\ np.shape (values da) = [t; l; length lon]
    /\ length (dims da) = 3
    /\ length (np.data (values da)) = t * l * length lon.
Proof.
  unfold well_formed. intros H.
  destruct (coord (coords da) "lon") as [lon |]; [| discriminate].
  destruct (np.shape (values da)) as [| t [| l [| n [| ? ?]]]]; try discriminate.
  apply andb_prop in H. destruct H as [H H3].
  apply andb_prop in H. destruct H as [H1 H2].
  apply Nat.eqb_eq in H1, H2, H3. subst n.
  exists lon, t, l. auto.
Qed.

Lemma dict_get_set (d : dict) (k v : string) :
  dict_get (dict_set d k v) k = Some v.
Proof.
  induction d as [| [k' v'] d IH]; simpl.
  - now rewrite String.eqb_refl.
  - destruct (String.eqb k' k) eqn:E; simpl.
    + now rewrite String.eqb_refl.
    + now rewrite E.
Qed.

(** ** Shape, dimension names and coordinates (C1) *)

(** The product has the shape of the input and as many values, the
    coordinates are handed over, and the output is well formed again. *)
Lemma apply_shape (repr : Q -> string) (keep : bool) (da : DataArray)
  (c : pynum) (ws : Z) (out : DataArray) :
  well_formed da = true ->
  apply_hann_window_lon repr keep da c ws = Ok out ->
  np.shape (values out) = np.shape (values da)
  /\ length (np.data (values out)) = length (np.data (values da))
  /\ coords out = coords da
  /\ well_formed out = true.
Proof.
  intros Hwf H.
  apply apply_Ok in H.
  destruct H as (lon & mask & t & l & w & Hlon & Hmask & Ht & Hl & Hmul & ->).
  apply multiply_Ok in Hmul. destruct Hmul as [Hshape ->].
  destruct (well_formed_inv da Hwf) as (lon' & t' & l' & Hlon' & Hs & Hd & Hn).
  rewrite Hlon in Hlon'. injection Hlon' as <-.
  rewrite Hs in Ht, Hl. simpl in Ht, Hl. injection Ht as <-. injection Hl as <-.
  apply hann_filter_length in Hmask.
  assert (Hlen : length (np.map2 Rmult (np.data (values da))
                           (np.data (np.tile mask t' l')))
                 = length (np.data (values da))).
  { rewrite map2_length, tile_length, Hmask, Hn. lia. }
  unfold well_formed.
  cbn [values dims coords name attrs np.shape np.data].
  rewrite Hlon, Hs, Hd, Hlen, Hn, !Nat.eqb_refl.
  repeat split; auto.
Qed.

(** C1.  Whenever the function returns an array for a well-formed
    three-dimensional input, that array has the shape of the input, the
    same number of values, the same dimension names and the same
    coordinate labels (and the same name), and is well formed itself.  This
    holds for every centre and window size for which an array is returned,
    hence for the valid inputs of the claim. *)
Theorem output_keeps_shape_dims_coords
  (repr : Q -> string) (keep : bool) (da : DataArray) (c : pynum) (ws : Z)
  (out : DataArray) :
  well_formed da = true ->
  apply_hann_window_lon repr keep da c ws = Ok out ->
  np.shape (values out) = np.shape (values da)
  /\ length (np.data (values out)) = length (np.data (values da))
  /\ dims out = dims da
  /\ coords out = coords da
  /\ name out = name da
  /\ well_formed out = true.
Proof.
  intros Hwf H.
  destruct (apply_shape repr keep da c ws out Hwf H) as (Hs & Hn & Hc & Hwf').
  apply apply_Ok in H.
  destruct H as (lon & mask & t & l & w & _ & _ & _ & _ & _ & Hout).
  assert (Hd : dims out = dims da) by now subst out.
  assert (Hname : name out = name da) by now subst out.
  repeat split; assumption.
Qed.

Lemma output_keeps_shape_dims_coords_witness :
  well_formed (ones_field lon360) = true
  /\ exists out,
      apply_hann_window_lon repr_whole false (ones_field lon360) (PyInt 10) 5
      = Ok out
      /\ np.shape (values out) = [1; 1; 360]
      /\ dims out = ["time"; "lat"; "lon"]
      /\ coords out = coords (ones_field lon360).
Proof.
  split; [reflexivity |].
  destruct (apply_hann_window_lon repr_whole false (ones_field lon360)
              (PyInt 10) 5) as [out | e] eqn:Hrun;
    [| exfalso; vm_compute in Hrun; discriminate Hrun].
  exists out. split; [reflexivity |].
  destruct (@output_keeps_shape_dims_coords repr_whole false
              (ones_field lon360) (PyInt 10) 5 out eq_refl Hrun)
    as (Hs & _ & Hd & Hc & _ & _).
  split; [exact Hs | split; [exact Hd | exact Hc]].
Defined.

(** ** The description attribute (C4) *)

Lemma string_append_assoc (s1 s2 s3 : string) :
  ((s1 ++ s2) ++ s3 = s1 ++ (s2 ++ s3))%string.
Proof. induction s1 as [| a s1 IH]; simpl; [reflexivity | now rewrite IH]. Qed.

(** C4.  The [description] attribute of the returned array is
    "Hanning window of size <window_size> applied at <center_lon>E" when
    [center_lon >= 0] and "... applied at <abs(center_lon)>W" when
    [center_lon < 0]; for the centre 30 it contains "30E" and for the centre
    -45 it contains "45W". *)
Theorem description_attribute
  (repr : Q -> string) (keep : bool) (da : DataArray) (c : pynum) (ws : Z)
  (out : DataArray) :
  apply_hann_window_lon repr keep da c ws = Ok out ->
  ((0 <= num_value c)%Q ->
   dict_get (attrs out) "description"
   = Some ("Hanning window of size " ++ str_int ws ++ " applied at "
             ++ format_num repr c ++ "E")%string)
  /\ ((num_value c < 0)%Q ->
      dict_get (attrs out) "description"
      = Some ("Hanning window of size " ++ str_int ws ++ " applied at "
                ++ format_num repr (py_abs c) ++ "W")%string)
  /\ (c = PyInt 30 ->
      exists text, dict_get (attrs out) "description" = Some text
                   /\ contains text "30E")
  /\ (c = PyInt (-45) ->
      exists text, dict_get (attrs out) "description" = Some text
                   /\ contains text "45W").
Proof.
  intros H. apply apply_Ok in H.
  destruct H as (lon & mask & t & l & w & _ & _ & _ & _ & _ & ->).
  simpl attrs. rewrite dict_get_set. unfold description, py_nonneg.
  repeat split.
  - intros Hc. apply Qle_bool_iff in Hc. now rewrite Hc.
  - intros Hc. destruct (Qle_bool 0 (num_value c)) eqn:E; [| reflexivity].
    apply Qle_bool_iff in E. exfalso. exact (Qlt_not_le _ _ Hc E).
  - intros ->. eexists. split; [reflexivity |].
    exists ("Hanning window of size " ++ str_int ws ++ " applied at ")%string,
           ""%string.
    rewrite !string_append_assoc. reflexivity.
  - intros ->. eexists. split; [reflexivity |].
    exists ("Hanning window of size " ++ str_int ws ++ " applied at ")%string,
           ""%string.
    rewrite !string_append_assoc. reflexivity.
Qed.

Lemma description_attribute_witness :
  exists east west,
    apply_hann_window_lon repr_whole false (ones_field lon360) (PyInt 30) 5
    = Ok east
    /\ apply_hann_window_lon repr_whole false (ones_field lon_west_east)
                             (PyInt (-45)) 5
       = Ok west
    /\ dict_get (attrs east) "description"
       = Some "Hanning window of size 5 applied at 30E"
    /\ dict_get (attrs west) "description"
       = Some "Hanning window of size 5 applied at 45W".
Proof.
  destruct (apply_hann_window_lon repr_whole false (ones_field lon360)
              (PyInt 30) 5) as [east | e] eqn:He;
    [| exfalso; vm_compute in He; discriminate He].
  destruct (apply_hann_window_lon repr_whole false (ones_field lon_west_east)
              (PyInt (-45)) 5) as [west | e] eqn:Hw;
    [| exfalso; vm_compute in Hw; discriminate Hw].
  exists east, west.
  split; [reflexivity |]. split; [reflexivity |].
  destruct (@description_attribute repr_whole false (ones_field lon360)
              (PyInt 30) 5 east He) as (Hpos & _ & _ & _).
  destruct (@description_attribute repr_whole false (ones_field lon_west_east)
              (PyInt (-45)) 5 west Hw) as (_ & Hneg & _ & _).
  split.
  - apply Hpos. discriminate.
  - apply Hneg. reflexivity.
Defined.

(** With a [float] centre the text is what [repr] prints: for 30.0 it ends
    in "30.0E", which does not contain "30E". *)
Remark description_float_30 (ws : Z) :
  description repr_whole (PyFloat 30) ws
  = ("Hanning window of size " ++ str_int ws ++ " applied at 30.0E")%string.
Proof. reflexivity. Qed.

(** ** Bounds of the mask (C7) *)

(** C7.  Every entry of the mask the function builds lies between 0 and 1
    (for every window size, positive or not): the entries are zeros and
    samples of the Hann curve. *)
Theorem mask_between_0_and_1
  (lon : list Q) (c : pynum) (ws : Z) (mask : list R) :
  hann_filter lon c ws = Ok mask ->
  Forall (fun m => (0 <= m <= 1)%R) mask.
Proof.
  intros H. apply hann_filter_Ok in H.
  destruct H as (idx & first & last & _ & _ & _ & H).
  apply setitem_slice_Forall with (P := fun m => (0 <= m <= 1)%R) in H; auto.
  - unfold np.zeros. apply Forall_forall. intros x Hx.
    apply repeat_spec in Hx. subst x. lra.
  - apply hanning_bounds.
Qed.

Lemma mask_between_0_and_1_witness :
  exists mask,
    hann_filter lon360 (PyInt 10) 5 = Ok mask
    /\ Forall (fun m => (0 <= m <= 1)%R) mask.
Proof.
  destruct (hann_filter lon360 (PyInt 10) 5) as [mask | e] eqn:Hrun;
    [| exfalso; vm_compute in Hrun; discriminate Hrun].
  exists mask. split; [reflexivity |].
  exact (@mask_between_0_and_1 lon360 (PyInt 10) 5 mask Hrun).
Defined.

(** ** The values of the output *)

Lemma map2_nth (f : R -> R -> R) (xs ys : list R) (i : nat) (d dx dy : R) :
  i < length xs -> i < length ys ->
  nth i (np.map2 f xs ys) d = f (nth i xs dx) (nth i ys dy).
Proof.
  revert ys i. induction xs as [| x xs IH]; intros [| y ys] [| i] Hx Hy;
    simpl in *; try lia; auto.
  apply IH; lia.
Qed.

(** Entry [q * len(v) + k] of [m] copies of [v] laid end to end is entry
    [k] of [v]. *)
Lemma concat_repeat_nth (v : list R) (m q k : nat) (d : R) :
  q < m -> k < length v ->
  nth (q * length v + k) (concat (repeat v m)) d = nth k v d.
Proof.
  revert q. induction m as [| m IH]; intros q Hq Hk; [lia |].
  simpl. destruct q as [| q].
  - simpl. now rewrite app_nth1.
  - rewrite app_nth2 by (simpl; lia).
    replace (S q * length v + k - length v) with (q * length v + k)
      by (simpl; lia).
    apply IH; lia.
Qed.

(** When the mask can be built, a well-formed input is windowed without
    error. *)
Lemma apply_returns (repr : Q -> string) (keep : bool) (da : DataArray)
  (c : pynum) (ws : Z) (lon : list Q) (mask : list R) :
  well_formed da = true ->
  coord (coords da) "lon" = Some lon ->
  hann_filter lon c ws = Ok mask ->
  exists out, apply_hann_window_lon repr keep da c ws = Ok out.
Proof.
  intros Hwf Hlon Hmask.
  destruct (well_formed_inv da Hwf) as (lon' & t & l & Hlon' & Hs & Hd & Hn).
  rewrite Hlon in Hlon'. injection Hlon' as <-.
  unfold apply_hann_window_lon, getattr_lon, item.
  rewrite Hlon. simpl. rewrite Hmask. simpl. rewrite Hs. simpl.
  unfold np.multiply. cbn [np.shape np.tile].
  rewrite Hs, (hann_filter_length _ _ _ _ Hmask).
  destruct (list_eq_dec Nat.eq_dec _ _) as [_ | Hne]; [| congruence].
  simpl. eauto.
Qed.

(** The values of the output: entry [(q, k)] of the input, [q] counting the
    (time, latitude) pairs in row-major order and [k] the longitude, times
    entry [k] of the mask. *)
Lemma apply_values_nth (repr : Q -> string) (keep : bool) (da : DataArray)
  (c : pynum) (ws : Z) (out : DataArray) (lon : list Q) (mask : list R)
  (t l : nat) :
  coord (coords da) "lon" = Some lon ->
  np.shape (values da) = [t; l; length lon] ->
  length (np.data (values da)) = t * l * length lon ->
  hann_filter lon c ws = Ok mask ->
  apply_hann_window_lon repr keep da c ws = Ok out ->
  np.data (values out)
  = np.map2 Rmult (np.data (values da)) (np.data (np.tile mask t l))
  /\ forall q k, q < t * l -> k < length lon ->
       nth (q * length lon + k) (np.data (values out)) 0%R
       = (nth (q * length lon + k) (np.data (values da)) 0
          * nth k mask 0)%R.
Proof.
  intros Hlon Hs Hn Hmask H.
  apply apply_Ok in H.
  destruct H as (lon' & mask' & t' & l' & w & Hlon' & Hmask' & Ht & Hl & Hmul & ->).
  rewrite Hlon in Hlon'. injection Hlon' as <-.
  rewrite Hmask in Hmask'. injection Hmask' as <-.
  rewrite Hs in Ht, Hl. simpl in Ht, Hl. injection Ht as <-. injection Hl as <-.
  apply multiply_Ok in Hmul. destruct Hmul as [_ ->].
  cbn [values np.data]. split; [reflexivity |].
  intros q k Hq Hk.
  pose proof (hann_filter_length _ _ _ _ Hmask) as Hlen.
  assert (Hidx : q * length lon + k < t * l * length lon) by nia.
  rewrite map2_nth with (dx := 0%R) (dy := 0%R).
  - f_equal. unfold np.tile. cbn [np.data].
    rewrite <- Hlen. apply concat_repeat_nth; lia.
  - lia.
  - rewrite tile_length, Hlen. lia.
Qed.

(** ** The scenario: axis 0..359, centre 10, five samples (C2) *)

Lemma lon_indices_10_5 : lon_indices lon360 (PyInt 10) 5 = Ok [8; 9; 10; 11; 12].
Proof. vm_compute. reflexivity. Qed.

Lemma hann_filter_10_5 : hann_filter lon360 (PyInt 10) 5 = Ok mask_10_5.
Proof.
  unfold hann_filter. rewrite lon_indices_10_5, hanning_5. reflexivity.
Qed.

(** C2.  On the axis [0, 1, ..., 359] with centre 10 and window size 5 the
    matched indices are 8..12, the mask is zero except at 8, 9, 10, 11, 12,
    where it is 0, 1/2, 1, 1/2, 0, and every well-formed field on that axis
    is returned multiplied, entry by entry, by the mask of its longitude. *)
Theorem scenario_center_10_size_5
  (repr : Q -> string) (keep : bool) (da : DataArray) (t l : nat) :
  well_formed da = true ->
  coord (coords da) "lon" = Some lon360 ->
  np.shape (values da) = [t; l; 360] ->
  lon_indices lon360 (PyInt 10) 5 = Ok [8; 9; 10; 11; 12]
  /\ hann_filter lon360 (PyInt 10) 5
     = Ok (repeat 0%R 8 ++ [0; 1/2; 1; 1/2; 0]%R ++ repeat 0%R 347)
  /\ exists out,
       apply_hann_window_lon repr keep da (PyInt 10) 5 = Ok out
       /\ forall i j k, i < t -> j < l -> k < 360 ->
            nth ((i * l + j) * 360 + k) (np.data (values out)) 0%R
            = (nth ((i * l + j) * 360 + k) (np.data (values da)) 0
               * nth k mask_10_5 0)%R.
Proof.
  intros Hwf Hlon Hs.
  split; [exact lon_indices_10_5 |]. split; [exact hann_filter_10_5 |].
  destruct (apply_returns repr keep da (PyInt 10) 5 lon360 mask_10_5 Hwf Hlon
              hann_filter_10_5)
    as [out Hout].
  exists out. split; [exact Hout |].
  intros i j k Hi Hj Hk.
  destruct (well_formed_inv da Hwf) as (lon' & t' & l' & Hlon' & Hs' & _ & Hn).
  rewrite Hlon in Hlon'. injection Hlon' as <-.
  rewrite Hs in Hs'. injection Hs' as <- <-.
  change 360 with (length lon360) in *.
  apply (apply_values_nth repr keep da (PyInt 10) 5 out lon360 mask_10_5 t l
           Hlon Hs Hn hann_filter_10_5 Hout); [nia | exact Hk].
Qed.

Lemma scenario_center_10_size_5_witness :
  well_formed (ones_field lon360) = true
  /\ exists out,
       apply_hann_window_lon repr_whole false (ones_field lon360) (PyInt 10) 5
       = Ok out
       /\ nth 9 (np.data (values out)) 0%R = (1 * (1 / 2))%R.
Proof.
  split; [reflexivity |].
  destruct (@scenario_center_10_size_5 repr_whole false (ones_field lon360)
              1 1 eq_refl eq_refl eq_refl) as (_ & _ & out & Hout & Hval).
  exists out. split; [exact Hout |].
  exact (Hval 0 0 9 (Nat.lt_0_succ 0) (Nat.lt_0_succ 0) ltac:(lia)).
Defined.

(** ** The ends of the window (C3) *)

Lemma item_Ok {A : Type} (x : list A) (i : nat) (a : A) :
  item x i = Ok a -> nth_error x i = Some a.
Proof. apply of_option_Ok. Qed.

(** The claim C3 fails for a window of one sample: [np.hanning(1)] is
    [[1.]], so on the axis 0..359 with centre 10 the function returns, the
    only matched index is 10, and the mask is 1 there. *)
Lemma window_of_one_sample_is_one :
  (0 < 1)%Z
  /\ (exists out,
        apply_hann_window_lon repr_whole false (ones_field lon360) (PyInt 10) 1
        = Ok out)
  /\ lon_indices lon360 (PyInt 10) 1 = Ok [10]
  /\ exists mask,
       hann_filter lon360 (PyInt 10) 1 = Ok mask
       /\ nth 10 mask 0%R = 1%R
       /\ nth 10 mask 0%R <> 0%R.
Proof.
  split; [lia |].
  split; [eexists; vm_compute; reflexivity |].
  split; [vm_compute; reflexivity |].
  eexists. split; [vm_compute; reflexivity |].
  split; [reflexivity |].
  simpl. exact R1_neq_R0.
Qed.

(** C3, amended.  For a window of two or more samples: whenever the mask is
    built, the first matched index lies on the axis and the mask is exactly
    0 there, and the mask is exactly 0 at the last index of the assigned
    span; that index is the last matched index whenever the last matched
    index lies on the axis (the search answers [len(lon)], one past the
    axis, for a candidate beyond the last longitude). *)
Theorem mask_zero_at_window_ends
  (lon : list Q) (c : pynum) (ws : Z) (idx : list nat) (first last : nat)
  (mask : list R) (d : R) :
  (2 <= ws)%Z ->
  lon_indices lon c ws = Ok idx ->
  item idx 0 = Ok first ->
  item_last idx = Ok last ->
  hann_filter lon c ws = Ok mask ->
  first < length lon
  /\ nth first mask d = 0%R
  /\ nth (Nat.min last (length lon - 1)) mask d = 0%R
  /\ (last < length lon -> nth last mask d = 0%R).
Proof.
  intros Hws Hidx Hfirst Hlast Hmask.
  apply hann_filter_Ok in Hmask.
  destruct Hmask as (idx' & first' & last' & Hidx' & Hfirst' & Hlast' & Hset).
  rewrite Hidx in Hidx'. injection Hidx' as <-.
  rewrite Hfirst in Hfirst'. injection Hfirst' as <-.
  rewrite Hlast in Hlast'. injection Hlast' as <-.
  apply setitem_slice_Ok in Hset.
  unfold slice_lo, slice_hi, np.zeros in Hset.
  rewrite repeat_length, hanning_length in Hset.
  set (n := length lon) in *.
  destruct Hset as [[Hlen ->] | [Hone _]]; [| lia].
  assert (Hf : first < n) by lia.
  assert (Hlo : Nat.min first n = first) by lia.
  assert (Hpre : length (firstn (Nat.min first n) (repeat 0%R n)) = first).
  { rewrite length_firstn, repeat_length. lia. }
  assert (Hend : forall i, i = first + (Z.to_nat ws - 1) ->
            nth i (firstn (Nat.min first n) (repeat 0%R n) ++ np.hanning ws
                     ++ skipn (Nat.max (Nat.min first n)
                                 (Nat.min (last + 1) n)) (repeat 0%R n)) d
            = 0%R).
  { intros i ->. rewrite app_nth2 by lia. rewrite Hpre.
    rewrite app_nth1 by (rewrite hanning_length; lia).
    replace (first + (Z.to_nat ws - 1) - first) with (Z.to_nat ws - 1) by lia.
    now apply hanning_last. }
  repeat split.
  - exact Hf.
  - rewrite app_nth2 by lia. rewrite Hpre, Nat.sub_diag.
    rewrite app_nth1 by (rewrite hanning_length; lia).
    now apply hanning_first.
  - apply Hend. lia.
  - intros Hl. apply Hend. lia.
Qed.

Lemma mask_zero_at_window_ends_witness :
  exists mask,
    hann_filter lon360 (PyInt 10) 5 = Ok mask
    /\ nth 8 mask 0%R = 0%R
    /\ nth 12 mask 0%R = 0%R.
Proof.
  destruct (hann_filter lon360 (PyInt 10) 5) as [mask | e] eqn:Hrun;
    [| exfalso; vm_compute in Hrun; discriminate Hrun].
  exists mask. split; [reflexivity |].
  destruct (@mask_zero_at_window_ends lon360 (PyInt 10) 5 [8; 9; 10; 11; 12]
              8 12 mask 0%R ltac:(lia) lon_indices_10_5 eq_refl eq_refl Hrun)
    as (_ & Hfirst & _ & Hlast).
  split; [exact Hfirst | apply Hlast; vm_compute; lia].
Defined.

(** ** Windowing twice (C6) *)

(** The claim C6 fails in its first form on binary64 values.  With a field
    value of 0.1 and a mask entry of 0.75 (one time, one latitude, one
    longitude), windowing twice gives [(0.1 * 0.75) * 0.75], which is
    larger than [0.1 * (0.75 * 0.75)], the input times the square of the
    mask: the product of line 38 rounds, and is not associative. *)
Lemma window_twice_is_not_input_times_mask_squared :
  f64.windowed (f64.windowed [tenth] [three_quarters] 1 1)
               [three_quarters] 1 1
  = [((tenth * three_quarters) * three_quarters)%float]
  /\ f64.windowed [tenth] (map (fun m => (m * m)%float) [three_quarters]) 1 1
     = [(tenth * (three_quarters * three_quarters))%float]
  /\ PrimFloat.ltb (tenth * (three_quarters * three_quarters))%float
                   ((tenth * three_quarters) * three_quarters)%float
     = true.
Proof.
  split; [vm_compute; reflexivity |].
  split; vm_compute; reflexivity.
Qed.

(** C6, amended.  When the function returns [once] for a well-formed input,
    it also returns for [once] with the same centre and size, and the
    values of that second array are the values of [once] times the mask,
    entry by entry, the values of [once] being the input times the mask:
    every value has been multiplied by its mask entry twice, in that
    order. *)
Theorem window_twice_is_once_times_mask
  (repr : Q -> string) (keep : bool) (da : DataArray) (c : pynum) (ws : Z)
  (once : DataArray) :
  well_formed da = true ->
  apply_hann_window_lon repr keep da c ws = Ok once ->
  exists lon mask t l twice,
    coord (coords da) "lon" = Some lon
    /\ np.shape (values da) = [t; l; length lon]
    /\ hann_filter lon c ws = Ok mask
    /\ np.data (values once)
       = np.map2 Rmult (np.data (values da)) (np.data (np.tile mask t l))
    /\ apply_hann_window_lon repr keep once c ws = Ok twice
    /\ np.data (values twice)
       = np.map2 Rmult (np.data (values once)) (np.data (np.tile mask t l))
    /\ forall q k, q < t * l -> k < length lon ->
         nth (q * length lon + k) (np.data (values twice)) 0%R
         = (nth (q * length lon + k) (np.data (values once)) 0
            * nth k mask 0)%R
         /\ nth (q * length lon + k) (np.data (values once)) 0%R
            = (nth (q * length lon + k) (np.data (values da)) 0
               * nth k mask 0)%R.
Proof.
  intros Hwf H1.
  destruct (well_formed_inv da Hwf) as (lon & t & l & Hlon & Hs & Hd & Hn).
  pose proof (apply_shape repr keep da c ws once Hwf H1)
    as (Hs1 & Hn1 & Hc1 & Hwf1).
  pose proof H1 as H1'. apply apply_Ok in H1'.
  destruct H1' as (lon' & mask & t' & l' & w & Hlon' & Hmask & _ & _ & _ & _).
  rewrite Hlon in Hlon'. injection Hlon' as <-.
  assert (Hlon1 : coord (coords once) "lon" = Some lon) by now rewrite Hc1.
  destruct (apply_returns repr keep once c ws lon mask Hwf1 Hlon1 Hmask)
    as [twice H2].
  rewrite Hs in Hs1. rewrite Hn in Hn1.
  destruct (apply_values_nth repr keep da c ws once lon mask t l
              Hlon Hs Hn Hmask H1) as [Hv1 Hnth1].
  destruct (apply_values_nth repr keep once c ws twice lon mask t l
              Hlon1 Hs1 Hn1 Hmask H2) as [Hv2 Hnth2].
  exists lon, mask, t, l, twice.
  split; [exact Hlon |]. split; [exact Hs |]. split; [exact Hmask |].
  split; [exact Hv1 |]. split; [exact H2 |]. split; [exact Hv2 |].
  intros q k Hq Hk. split; [now apply Hnth2 | now apply Hnth1].
Qed.

Lemma window_twice_is_once_times_mask_witness :
  well_formed (ones_field lon360) = true
  /\ exists once twice,
       apply_hann_window_lon repr_whole false (ones_field lon360) (PyInt 10) 5
       = Ok once
       /\ apply_hann_window_lon repr_whole false once (PyInt 10) 5 = Ok twice
       /\ nth 9 (np.data (values twice)) 0%R
          = (nth 9 (np.data (values once)) 0 * (1 / 2))%R.
Proof.
  split; [reflexivity |].
  destruct (apply_hann_window_lon repr_whole false (ones_field lon360)
              (PyInt 10) 5) as [once | e] eqn:Hrun;
    [| exfalso; vm_compute in Hrun; discriminate Hrun].
  destruct (@window_twice_is_once_times_mask repr_whole false
              (ones_field lon360) (PyInt 10) 5 once eq_refl Hrun)
    as (lon & mask & t & l & twice & Hlon & Hs & Hmask & _ & Htwice & _
        & Hnth).
  injection Hlon as <-. injection Hs as <- <-.
  rewrite hann_filter_10_5 in Hmask. injection Hmask as <-.
  exists once, twice. split; [reflexivity |]. split; [exact Htwice |].
  exact (proj1 (Hnth 0 9 ltac:(lia) ltac:(vm_compute; lia))).
Defined.

(** ** Axes with a spacing of exactly one *)

Lemma Qceiling_unique (x : Q) (z : Z) :
  (inject_Z (z - 1) < x)%Q -> (x <= inject_Z z)%Q -> Qceiling x = z.
Proof.
  intros Hlo Hhi.
  pose proof (Qceiling_lt x) as H1. pose proof (Qle_ceiling x) as H2.
  assert (Ha : (inject_Z (Qceiling x - 1) < inject_Z z)%Q)
    by (eapply Qlt_le_trans; eauto).
  assert (Hb : (inject_Z (z - 1) < inject_Z (Qceiling x))%Q)
    by (eapply Qlt_le_trans; eauto).
  rewrite <- Zlt_Qlt in Ha, Hb. lia.
Qed.

Lemma Qceiling_plus_Z (x : Q) (z : Z) :
  Qceiling (x + inject_Z z)%Q = (Qceiling x + z)%Z.
Proof.
  pose proof (Qceiling_lt x) as H1. pose proof (Qle_ceiling x) as H2.
  apply Qceiling_unique.
  - replace (Qceiling x + z - 1)%Z with ((Qceiling x - 1) + z)%Z by lia.
    rewrite inject_Z_plus. lra.
  - rewrite inject_Z_plus. lra.
Qed.

Lemma unit_spaced_ascending (lon : list Q) : unit_spaced lon -> ascending lon.
Proof.
  intros H i j Hij Hj. rewrite (H i), (H j) by lia.
  assert (inject_Z (Z.of_nat i) <= inject_Z (Z.of_nat j))%Q
    by (rewrite <- Zle_Qle; lia).
  lra.
Qed.

(** On a unit grid the search has a closed form: the distance of the key
    from the first longitude, rounded up. *)
Lemma searchsorted1_unit_grid (lon : list Q) (w : Q) :
  unit_spaced lon -> 0 < length lon ->
  (w <= nth (length lon - 1) lon 0)%Q ->
  np.searchsorted1 lon w = Z.to_nat (Qceiling (w - nth 0 lon 0)%Q).
Proof.
  intros Hunit Hn Hw.
  apply searchsorted1_unique; [now apply unit_spaced_ascending |].
  pose proof (Qceiling_lt (w - nth 0 lon 0)%Q) as H1.
  pose proof (Qle_ceiling (w - nth 0 lon 0)%Q) as H2.
  set (z := Qceiling (w - nth 0 lon 0)%Q) in *.
  assert (Hz : (z <= Z.of_nat (length lon - 1))%Z).
  { rewrite <- (Qceiling_Z (Z.of_nat (length lon - 1))). unfold z.
    apply Qceiling_resp_le. rewrite (Hunit (length lon - 1)) in Hw by lia. lra. }
  repeat split.
  - lia.
  - intros k Hk. rewrite (Hunit k) by lia.
    assert (inject_Z (Z.of_nat k) <= inject_Z (z - 1))%Q
      by (rewrite <- Zle_Qle; lia).
    lra.
  - intros k Hk Hkn. rewrite (Hunit k) by lia.
    assert (inject_Z z <= inject_Z (Z.of_nat k))%Q
      by (rewrite <- Zle_Qle; lia).
    lra.
Qed.

Lemma lon_resolution_Ok (lon : list Q) :
  2 <= length lon ->
  lon_resolution lon = Ok (Qabs (nth 0 lon 0 - nth 1 lon 0)%Q).
Proof.
  destruct lon as [| a0 [| a1 rest]]; simpl; intros H; try lia. reflexivity.
Qed.

Lemma seq_as_map (p m : nat) : seq p m = map (fun i => p + i) (seq 0 m).
Proof.
  revert p. induction m as [| m IH]; intros p; simpl; [reflexivity |].
  rewrite Nat.add_0_r. f_equal.
  rewrite (IH (S p)), (IH 1), map_map.
  apply map_ext. intros i. lia.
Qed.

Lemma nth_error_seq_last (p m : nat) :
  nth_error (seq p (m + 1)) (length (seq p (m + 1)) - 1) = Some (p + m).
Proof.
  rewrite length_seq. replace (m + 1 - 1) with m by lia.
  rewrite seq_app. rewrite nth_error_app2 by (rewrite length_seq; lia).
  rewrite length_seq, Nat.sub_diag. reflexivity.
Qed.

(** On a unit grid that contains the window, the candidates are
    [2 * (window_size div 2) + 1] in number and are matched to as many
    consecutive indices, all on the axis. *)
Lemma unit_grid_indices (lon : list Q) (c : pynum) (ws h : Z) :
  unit_spaced lon ->
  2 <= length lon ->
  (ws ÷ 2 = h)%Z -> (0 <= h)%Z ->
  (nth 0 lon 0 <= left_ext c ws)%Q ->
  (right_ext c ws <= nth (length lon - 1) lon 0)%Q ->
  exists cs p,
    candidates lon c ws = Ok cs
    /\ length cs = 2 * Z.to_nat h + 1
    /\ lon_indices lon c ws = Ok (seq p (2 * Z.to_nat h + 1))
    /\ p + 2 * Z.to_nat h < length lon.
Proof.
  intros Hunit Hn Hh Hh0 Hleft Hright.
  unfold left_ext, right_ext in Hleft, Hright. rewrite Hh in Hleft, Hright.
  set (a0 := nth 0 lon 0%Q) in *. set (cq := num_value c) in *.
  assert (Hres : (Qabs (a0 - nth 1 lon 0)%Q == 1)%Q).
  { pose proof (Hunit 1 ltac:(lia)) as H1. fold a0 in H1.
    change (inject_Z (Z.of_nat 1)) with 1%Q in H1.
    assert (E : (a0 - nth 1 lon 0 == - (1))%Q) by lra.
    rewrite E. reflexivity. }
  assert (Hcand : candidates lon c ws
            = Ok (map (fun i => (left_ext c ws + inject_Z (Z.of_nat i)
                                 * Qabs (a0 - nth 1 lon 0)%Q)%Q)
                      (seq 0 (2 * Z.to_nat h + 1)))).
  { unfold candidates. rewrite lon_resolution_Ok by exact Hn. fold a0.
    cbn [bind]. unfold np.arange.
    destruct (Qeq_bool (Qabs (a0 - nth 1 lon 0)%Q) 0%Q) eqn:E.
    - apply Qeq_bool_eq in E. lra.
    - do 3 f_equal.
      rewrite (Qceiling_comp _ (inject_Z (2 * h + 1))).
      + rewrite Qceiling_Z. lia.
      + unfold left_ext, right_ext. rewrite Hh. fold cq.
        rewrite Hres, inject_Z_plus, inject_Z_mult.
        change (inject_Z 2) with 2%Q. change (inject_Z 1) with 1%Q.
        field. }
  set (p := Z.to_nat (Qceiling (cq - inject_Z h - a0)%Q)).
  assert (Hp0 : (0 <= Qceiling (cq - inject_Z h - a0)%Q)%Z).
  { rewrite <- (Qceiling_Z 0). apply Qceiling_resp_le.
    change (inject_Z 0) with 0%Q. lra. }
  assert (Hshift : forall i, i <= 2 * Z.to_nat h ->
            np.searchsorted1 lon
              (left_ext c ws + inject_Z (Z.of_nat i)
               * Qabs (a0 - nth 1 lon 0)%Q)%Q
            = p + i
            /\ p + i < length lon).
  { intros i Hi.
    assert (Hi' : (inject_Z (Z.of_nat i) <= 2 * inject_Z h)%Q).
    { change 2%Q with (inject_Z 2). rewrite <- inject_Z_mult, <- Zle_Qle. lia. }
    assert (Hval : (left_ext c ws + inject_Z (Z.of_nat i)
                    * Qabs (a0 - nth 1 lon 0)%Q - a0
                    == (cq - inject_Z h - a0) + inject_Z (Z.of_nat i))%Q).
    { unfold left_ext. rewrite Hh, Hres. fold cq. ring. }
    rewrite searchsorted1_unit_grid; try assumption; try lia.
    - fold a0. rewrite (Qceiling_comp _ _ Hval), Qceiling_plus_Z.
      split; [unfold p; lia |].
      assert (Hz : (Qceiling (cq - inject_Z h - a0 + inject_Z (Z.of_nat i))%Q
                    <= Z.of_nat (length lon - 1))%Z).
      { rewrite <- (Qceiling_Z (Z.of_nat (length lon - 1))).
        apply Qceiling_resp_le.
        rewrite (Hunit (length lon - 1)) in Hright by lia. fold a0 in Hright.
        lra. }
      rewrite Qceiling_plus_Z in Hz. unfold p. lia.
    - unfold left_ext. rewrite Hh, Hres. fold cq. lra. }
  exists (map (fun i => (left_ext c ws + inject_Z (Z.of_nat i)
                         * Qabs (a0 - nth 1 lon 0)%Q)%Q)
              (seq 0 (2 * Z.to_nat h + 1))), p.
  repeat split.
  - exact Hcand.
  - now rewrite length_map, length_seq.
  - unfold lon_indices. rewrite Hcand. cbn [bind]. f_equal.
    unfold np.searchsorted. rewrite map_map, (seq_as_map p).
    apply map_ext_in. intros i Hi. apply in_seq in Hi.
    apply Hshift. lia.
  - apply (Hshift (2 * Z.to_nat h)). lia.
Qed.

Lemma uniformly_spaced_unit (lon : list Q) :
  uniformly_spaced lon 1 = true -> unit_spaced lon.
Proof.
  unfold uniformly_spaced. intros H.
  assert (Hstep : forall k, S k < length lon ->
            (nth (S k) lon 0 == nth k lon 0 + 1)%Q).
  { intros k Hk.
    assert (Hin : In k (seq 0 (length lon - 1))) by (apply in_seq; lia).
    pose proof (proj1 (forallb_forall _ _) H k Hin) as E.
    apply Qeq_bool_eq in E. lra. }
  intros k. induction k as [| k IH]; intros Hk.
  - change (inject_Z (Z.of_nat 0)) with 0%Q. lra.
  - rewrite (Hstep k Hk), IH by lia.
    rewrite Nat2Z.inj_succ. unfold Z.succ. rewrite inject_Z_plus.
    change (inject_Z 1) with 1%Q. lra.
Qed.

Lemma item_seq_first (p m : nat) : item (seq p (m + 1)) 0 = Ok p.
Proof. rewrite Nat.add_1_r. reflexivity. Qed.

Lemma item_last_seq (p m : nat) : item_last (seq p (m + 1)) = Ok (p + m).
Proof. unfold item_last. now rewrite nth_error_seq_last. Qed.

Lemma firstn_repeat {A : Type} (x : A) (k n : nat) :
  firstn k (repeat x n) = repeat x (Nat.min k n).
Proof.
  revert n. induction k as [| k IH]; intros [| n]; simpl; auto.
  now rewrite IH.
Qed.

Lemma skipn_repeat {A : Type} (x : A) (k n : nat) :
  skipn k (repeat x n) = repeat x (n - k).
Proof.
  revert n. induction k as [| k IH]; intros [| n]; simpl; auto.
Qed.

(** The slice assignment when the matched indices are [p, ..., p + m], all
    on the axis: the span has [m + 1] entries. *)
Lemma hann_filter_of_span (lon : list Q) (c : pynum) (ws : Z) (p m : nat) :
  lon_indices lon c ws = Ok (seq p (m + 1)) ->
  p + m < length lon ->
  hann_filter lon c ws
  = if Z.to_nat ws =? m + 1 then
      Ok (repeat 0%R p ++ np.hanning ws
            ++ repeat 0%R (length lon - (p + m + 1)))
    else if Z.to_nat ws =? 1 then
      Ok (repeat 0%R p ++ repeat (hd 0%R (np.hanning ws)) (m + 1)
            ++ repeat 0%R (length lon - (p + m + 1)))
    else Raise BroadcastError.
Proof.
  intros Hidx Hp. unfold hann_filter. rewrite Hidx. cbn [bind].
  rewrite item_seq_first, item_last_seq. cbn [bind].
  unfold np.setitem_slice, np.zeros.
  rewrite repeat_length, hanning_length.
  replace (Nat.min p (length lon)) with p by lia.
  replace (Nat.max p (Nat.min (p + m + 1) (length lon))) with (p + m + 1)
    by lia.
  replace (p + m + 1 - p) with (m + 1) by lia.
  rewrite firstn_repeat, skipn_repeat.
  replace (Nat.min p (length lon)) with p by lia.
  reflexivity.
Qed.

(** When the mask cannot be built, the function raises the same
    exception. *)
Lemma apply_raises (repr : Q -> string) (keep : bool) (da : DataArray)
  (c : pynum) (ws : Z) (lon : list Q) (e : exn) :
  coord (coords da) "lon" = Some lon ->
  hann_filter lon c ws = Raise e ->
  apply_hann_window_lon repr keep da c ws = Raise e.
Proof.
  intros Hlon H. unfold apply_hann_window_lon, getattr_lon.
  rewrite Hlon. cbn [of_option bind]. rewrite H. reflexivity.
Qed.

Lemma window_needs_two_longitudes (lon : list Q) (c : pynum) (ws h : Z) :
  (ws ÷ 2 = h)%Z -> (1 <= h)%Z ->
  (nth 0 lon 0 <= left_ext c ws)%Q ->
  (right_ext c ws <= nth (length lon - 1) lon 0)%Q ->
  2 <= length lon.
Proof.
  unfold left_ext, right_ext. intros -> Hh Hl Hr.
  assert (Hq : (1 <= inject_Z h)%Q)
    by (change 1%Q with (inject_Z 1); rewrite <- Zle_Qle; exact Hh).
  destruct lon as [| a0 [| a1 rest]]; simpl in *; try lia; lra.
Qed.

(** ** Even window sizes (C10) *)

(** The claim C10 fails on an axis whose spacing is not one.  On
    [0, 2, ..., 358] with centre 5 and window size 2 the axis is uniformly
    spaced and contains the window [4, 6], yet there are two candidates
    (not three), matched to indices 2 and 3, the two-sample curve fits the
    span, and the function returns. *)
Lemma even_window_returns_on_two_degree_grid :
  Z.even 2 = true
  /\ uniformly_spaced lon180 2 = true
  /\ (nth 0 lon180 0 <= left_ext (PyInt 5) 2)%Q
  /\ (right_ext (PyInt 5) 2 <= nth 179 lon180 0)%Q
  /\ (exists cs, candidates lon180 (PyInt 5) 2 = Ok cs /\ length cs = 2)
  /\ lon_indices lon180 (PyInt 5) 2 = Ok [2; 3]
  /\ (exists mask, hann_filter lon180 (PyInt 5) 2 = Ok mask)
  /\ (exists out,
        apply_hann_window_lon repr_whole false (ones_field lon180) (PyInt 5) 2
        = Ok out).
Proof.
  split; [reflexivity |].
  split; [vm_compute; reflexivity |].
  split; [vm_compute; discriminate |].
  split; [vm_compute; discriminate |].
  split; [eexists; split; [vm_compute; reflexivity | reflexivity] |].
  split; [vm_compute; reflexivity |].
  split; eexists; vm_compute; reflexivity.
Qed.

(** Off the grid the count of candidates is not the exact one either: for
    the centre 7.3 and a half width of 1 on an axis of spacing 1, the
    quotient [((7.3 + 1) + 1 - (7.3 - 1)) / 1] is larger than 3 in binary64,
    so [np.arange] steps through four candidates where the exact count is
    three.  The statements below are therefore about whole inputs. *)
Remark off_grid_centre_has_one_candidate_more :
  PrimFloat.ltb 3%float (f64.candidates_quotient centre_7_3 1%float 1%float)
  = true.
Proof. vm_compute. reflexivity. Qed.

(** C10, amended.  On an axis of whole longitudes with a spacing of exactly
    one that contains the window, with a whole centre, an even window size
    of two or more yields [window_size + 1] candidates, matched to
    [window_size + 1] consecutive indices on the axis; the curve of
    [window_size] samples does not fit that span, the slice assignment
    raises the shape error, and so does the function. *)
Theorem even_window_fails_on_unit_grid
  (repr : Q -> string) (keep : bool) (da : DataArray) (lon : list Q)
  (c : pynum) (ws : Z) :
  coord (coords da) "lon" = Some lon ->
  whole_inputs lon c ws = true ->
  uniformly_spaced lon 1 = true ->
  (2 <= ws)%Z -> Z.even ws = true ->
  (nth 0 lon 0 <= left_ext c ws)%Q ->
  (right_ext c ws <= nth (length lon - 1) lon 0)%Q ->
  exists cs first,
    candidates lon c ws = Ok cs
    /\ length cs = Z.to_nat ws + 1
    /\ lon_indices lon c ws = Ok (seq first (Z.to_nat ws + 1))
    /\ first + Z.to_nat ws < length lon
    /\ hann_filter lon c ws = Raise BroadcastError
    /\ apply_hann_window_lon repr keep da c ws = Raise BroadcastError.
Proof.
  intros Hlon _ Hunit Hws Heven Hleft Hright.
  apply uniformly_spaced_unit in Hunit.
  apply Z.even_spec in Heven. destruct Heven as [h Hh].
  assert (Hq : (ws ÷ 2 = h)%Z).
  { subst ws. rewrite Z.mul_comm. apply Z.quot_mul. lia. }
  assert (Hn : 2 <= length lon)
    by (apply (window_needs_two_longitudes lon c ws h Hq); auto; lia).
  destruct (unit_grid_indices lon c ws h Hunit Hn Hq ltac:(lia) Hleft Hright)
    as (cs & p & Hcs & Hlen & Hidx & Hp).
  replace (2 * Z.to_nat h) with (Z.to_nat ws) in * by lia.
  assert (Hraise : hann_filter lon c ws = Raise BroadcastError).
  { rewrite (hann_filter_of_span lon c ws _ _ Hidx Hp).
    destruct (Nat.eqb_spec (Z.to_nat ws) (Z.to_nat ws + 1)); [lia |].
    destruct (Nat.eqb_spec (Z.to_nat ws) 1); [lia | reflexivity]. }
  exists cs, p. repeat split; auto.
  now apply apply_raises with (lon := lon).
Qed.

Lemma even_window_fails_on_unit_grid_witness :
  whole_inputs lon360 (PyInt 10) 4 = true
  /\ exists cs,
    candidates lon360 (PyInt 10) 4 = Ok cs
    /\ length cs = 5
    /\ hann_filter lon360 (PyInt 10) 4 = Raise BroadcastError
    /\ apply_hann_window_lon repr_whole false (ones_field lon360) (PyInt 10) 4
       = Raise BroadcastError.
Proof.
  destruct (@even_window_fails_on_unit_grid repr_whole false
              (ones_field lon360) lon360 (PyInt 10) 4 eq_refl
              ltac:(vm_compute; reflexivity)
              ltac:(vm_compute; reflexivity) ltac:(lia) eq_refl
              ltac:(vm_compute; discriminate) ltac:(vm_compute; discriminate))
    as (cs & first & Hcs & Hlen & _ & _ & Hmask & Hrun).
  split; [vm_compute; reflexivity |].
  exists cs. repeat split; assumption.
Defined.

(** The other half: on such an axis an odd window size fits, and the mask
    is the curve between zeros. *)
Lemma odd_window_returns_on_unit_grid
  (repr : Q -> string) (keep : bool) (da : DataArray) (lon : list Q)
  (c : pynum) (ws : Z) :
  well_formed da = true ->
  coord (coords da) "lon" = Some lon ->
  whole_inputs lon c ws = true ->
  uniformly_spaced lon 1 = true -> 2 <= length lon ->
  (1 <= ws)%Z -> Z.odd ws = true ->
  (nth 0 lon 0 <= left_ext c ws)%Q ->
  (right_ext c ws <= nth (length lon - 1) lon 0)%Q ->
  exists first out,
    lon_indices lon c ws = Ok (seq first (Z.to_nat ws))
    /\ first + Z.to_nat ws <= length lon
    /\ hann_filter lon c ws
       = Ok (repeat 0%R first ++ np.hanning ws
               ++ repeat 0%R (length lon - (first + Z.to_nat ws)))
    /\ apply_hann_window_lon repr keep da c ws = Ok out.
Proof.
  intros Hwf Hlon _ Hunit Hn Hws Hodd Hleft Hright.
  apply uniformly_spaced_unit in Hunit.
  apply Z.odd_spec in Hodd. destruct Hodd as [h Hh].
  assert (Hq : (ws ÷ 2 = h)%Z).
  { subst ws. rewrite Z.quot_div_nonneg by lia.
    rewrite Z.mul_comm, Z.div_add_l by lia. now rewrite Z.add_0_r. }
  destruct (unit_grid_indices lon c ws h Hunit Hn Hq ltac:(lia) Hleft Hright)
    as (cs & p & Hcs & Hlen & Hidx & Hp).
  assert (Hmask : hann_filter lon c ws
                  = Ok (repeat 0%R p ++ np.hanning ws
                          ++ repeat 0%R (length lon - (p + Z.to_nat ws)))).
  { rewrite (hann_filter_of_span lon c ws _ _ Hidx Hp).
    destruct (Nat.eqb_spec (Z.to_nat ws) (2 * Z.to_nat h + 1)); [| lia].
    do 4 f_equal. lia. }
  destruct (apply_returns repr keep da c ws lon _ Hwf Hlon Hmask)
    as [out Hout].
  exists p, out. replace (Z.to_nat ws) with (2 * Z.to_nat h + 1) at 1 2 by lia.
  repeat split; auto. lia.
Qed.

(** ** A window beyond the axis (C8) *)

(** The claim C8 fails at its own example: on the axis 0..359 with centre
    -10 and window size 5 all five candidates are matched to index 0, the
    span has one entry, the five-sample curve does not fit it, and the
    function raises the shape error instead of returning. *)
Lemma window_west_of_axis_raises :
  lon_indices lon360 (PyInt (-10)) 5 = Ok [0; 0; 0; 0; 0]
  /\ hann_filter lon360 (PyInt (-10)) 5 = Raise BroadcastError
  /\ apply_hann_window_lon repr_whole false (ones_field lon360)
                           (PyInt (-10)) 5
     = Raise BroadcastError
  /\ ~ (exists out,
          apply_hann_window_lon repr_whole false (ones_field lon360)
                                (PyInt (-10)) 5
          = Ok out).
Proof.
  assert (H : apply_hann_window_lon repr_whole false (ones_field lon360)
                (PyInt (-10)) 5 = Raise BroadcastError)
    by (vm_compute; reflexivity).
  split; [vm_compute; reflexivity |].
  split; [vm_compute; reflexivity |].
  split; [exact H |].
  intros [out Hout]. rewrite H in Hout. discriminate Hout.
Qed.

Lemma hann_filter_west_1 :
  hann_filter lon360 (PyInt (-10)) 1 = Ok (1%R :: repeat 0%R 359).
Proof. vm_compute. reflexivity. Qed.

Lemma hann_filter_east_1 :
  hann_filter lon360 (PyInt 400) 1 = Ok (repeat 0%R 360).
Proof. vm_compute. reflexivity. Qed.

Lemma hann_filter_edge_4 :
  hann_filter lon360 (PyInt 358) 4 = Ok (repeat 0%R 356 ++ np.hanning 4).
Proof. vm_compute. reflexivity. Qed.

Lemma whole_integer (q : Q) : whole q = true -> (q == inject_Z (Qfloor q))%Q.
Proof.
  unfold whole. intros H. apply andb_prop in H. destruct H as [H _].
  now apply Qeq_bool_eq in H.
Qed.

Lemma whole_inputs_inv (lon : list Q) (c : pynum) (ws : Z) :
  whole_inputs lon c ws = true ->
  (forall k, k < length lon ->
     (nth k lon 0 == inject_Z (Qfloor (nth k lon 0)))%Q)
  /\ (num_value c == inject_Z (Qfloor (num_value c)))%Q.
Proof.
  unfold whole_inputs. intros H.
  apply andb_prop in H. destruct H as [H _].
  apply andb_prop in H. destruct H as [Hlon Hc].
  split; [| now apply whole_integer].
  intros k Hk. apply whole_integer.
  apply (proj1 (forallb_forall _ _) Hlon). now apply nth_In.
Qed.

(** On a unit grid the search has a closed form for every key: the
    distance of the key from the first longitude, rounded up and clipped
    to the length of the axis. *)
Lemma searchsorted1_unit_clip (lon : list Q) (w : Q) :
  unit_spaced lon -> 0 < length lon ->
  np.searchsorted1 lon w
  = Nat.min (length lon) (Z.to_nat (Qceiling (w - nth 0 lon 0)%Q)).
Proof.
  intros Hunit Hn.
  destruct (Qlt_le_dec (nth (length lon - 1) lon 0%Q) w) as [Hbeyond | Hin].
  - assert (Hz : (Z.of_nat (length lon) <= Qceiling (w - nth 0 lon 0)%Q)%Z).
    { pose proof (Qle_ceiling (w - nth 0 lon 0)%Q) as H2.
      rewrite (Hunit (length lon - 1)) in Hbeyond by lia.
      assert (H : (inject_Z (Z.of_nat (length lon - 1))
                   < inject_Z (Qceiling (w - nth 0 lon 0)%Q))%Q) by lra.
      rewrite <- Zlt_Qlt in H. lia. }
    rewrite Nat.min_l by lia.
    apply searchsorted1_unique; [now apply unit_spaced_ascending |].
    split; [lia |]. split.
    + intros k Hk.
      pose proof (unit_spaced_ascending lon Hunit k (length lon - 1)
                    ltac:(lia) ltac:(lia)).
      lra.
    + intros k Hk Hkn. lia.
  - rewrite searchsorted1_unit_grid by assumption.
    assert (Hz : (Qceiling (w - nth 0 lon 0)%Q <= Z.of_nat (length lon - 1))%Z).
    { rewrite <- (Qceiling_Z (Z.of_nat (length lon - 1))).
      apply Qceiling_resp_le. rewrite (Hunit (length lon - 1)) in Hin by lia.
      lra. }
    lia.
Qed.

(** On a unit grid the candidates are [2 * (window_size div 2) + 1] in
    number, wherever the window lies. *)
Lemma unit_candidates (lon : list Q) (c : pynum) (ws h : Z) :
  unit_spaced lon -> 2 <= length lon ->
  (ws ÷ 2 = h)%Z -> (0 <= h)%Z ->
  candidates lon c ws
  = Ok (map (fun i => (left_ext c ws + inject_Z (Z.of_nat i)
                       * Qabs (nth 0 lon 0 - nth 1 lon 0))%Q)
            (seq 0 (2 * Z.to_nat h + 1)))
  /\ (Qabs (nth 0 lon 0 - nth 1 lon 0) == 1)%Q.
Proof.
  intros Hunit Hn Hh Hh0.
  assert (Hres : (Qabs (nth 0 lon 0 - nth 1 lon 0)%Q == 1)%Q).
  { pose proof (Hunit 1 ltac:(lia)) as H1.
    change (inject_Z (Z.of_nat 1)) with 1%Q in H1.
    assert (E : (nth 0 lon 0 - nth 1 lon 0 == - (1))%Q) by lra.
    rewrite E. reflexivity. }
  split; [| exact Hres].
  unfold candidates. rewrite lon_resolution_Ok by exact Hn.
  cbn [bind]. unfold np.arange.
  destruct (Qeq_bool (Qabs (nth 0 lon 0 - nth 1 lon 0)%Q) 0%Q) eqn:E;
    [apply Qeq_bool_eq in E; lra |].
  do 3 f_equal.
  rewrite (Qceiling_comp _ (inject_Z (2 * h + 1))).
  - rewrite Qceiling_Z. lia.
  - unfold left_ext, right_ext. rewrite Hh.
    rewrite Hres, inject_Z_plus, inject_Z_mult.
    change (inject_Z 2) with 2%Q. change (inject_Z 1) with 1%Q.
    field.
Qed.

Lemma item_map_seq_first {A : Type} (f : nat -> A) (m : nat) :
  item (map f (seq 0 (m + 1))) 0 = Ok (f 0).
Proof. rewrite Nat.add_1_r. reflexivity. Qed.

Lemma item_last_map_seq {A : Type} (f : nat -> A) (m : nat) :
  item_last (map f (seq 0 (m + 1))) = Ok (f m).
Proof.
  unfold item_last. rewrite length_map, length_seq.
  replace (m + 1 - 1) with m by lia.
  rewrite nth_error_map, seq_app, nth_error_app2 by (rewrite length_seq; lia).
  rewrite length_seq, Nat.sub_diag. reflexivity.
Qed.

(** On a unit grid of whole longitudes with a whole centre, a window of an
    odd size of three or more that is not contained in the axis is matched
    to a span shorter than the curve. *)
Lemma odd_window_off_axis (lon : list Q) (c : pynum) (ws : Z) :
  whole_inputs lon c ws = true ->
  uniformly_spaced lon 1 = true -> 2 <= length lon ->
  (3 <= ws)%Z -> Z.odd ws = true ->
  (left_ext c ws < nth 0 lon 0
   \/ nth (length lon - 1) lon 0 < right_ext c ws)%Q ->
  hann_filter lon c ws = Raise BroadcastError.
Proof.
  intros Hwhole Hgrid Hn Hws Hodd Hoff.
  apply uniformly_spaced_unit in Hgrid.
  apply Z.odd_spec in Hodd. destruct Hodd as [h Hh].
  assert (Hq : (ws ÷ 2 = h)%Z).
  { subst ws. rewrite Z.quot_div_nonneg by lia.
    rewrite Z.mul_comm, Z.div_add_l by lia. now rewrite Z.add_0_r. }
  destruct (whole_inputs_inv lon c ws Hwhole) as [Hlon Hc].
  specialize (Hlon 0 ltac:(lia)).
  destruct (unit_candidates lon c ws h Hgrid Hn Hq ltac:(lia)) as [Hcand Hres].
  set (a0 := nth 0 lon 0%Q) in *. set (cq := num_value c) in *.
  set (L := (Qfloor cq - h - Qfloor a0)%Z).
  assert (Hleft : (left_ext c ws - a0 == inject_Z L)%Q).
  { unfold left_ext, L, Z.sub. rewrite Hq. fold cq.
    rewrite !inject_Z_plus, !inject_Z_opp. lra. }
  assert (Hidx : lon_indices lon c ws
            = Ok (map (fun i => Nat.min (length lon)
                                  (Z.to_nat (L + Z.of_nat i)))
                      (seq 0 (2 * Z.to_nat h + 1)))).
  { unfold lon_indices. rewrite Hcand. cbn [bind]. f_equal.
    unfold np.searchsorted. rewrite map_map.
    apply map_ext. intros i.
    rewrite searchsorted1_unit_clip by (assumption || lia).
    fold a0. do 2 f_equal.
    rewrite (Qceiling_comp _ (inject_Z (L + Z.of_nat i))).
    - apply Qceiling_Z.
    - rewrite inject_Z_plus, Hres. lra. }
  unfold hann_filter. rewrite Hidx. cbn [bind].
  rewrite item_map_seq_first, item_last_map_seq. cbn [bind].
  unfold np.setitem_slice, np.zeros. rewrite repeat_length, hanning_length.
  assert (Hoff' : (L < 0 \/ Z.of_nat (length lon) - 1 < L + 2 * h)%Z).
  { destruct Hoff as [Hw | He].
    - left. assert (H : (inject_Z L < inject_Z 0)%Q)
        by (change (inject_Z 0) with 0%Q; lra).
      now rewrite <- Zlt_Qlt in H.
    - right. rewrite (Hgrid (length lon - 1)) in He by lia. fold a0 in He.
      unfold right_ext in He. rewrite Hq in He. fold cq in He.
      unfold left_ext in Hleft. rewrite Hq in Hleft. fold cq in Hleft.
      assert (H : (inject_Z (Z.of_nat (length lon - 1))
                   < inject_Z (L + 2 * h))%Q).
      { rewrite inject_Z_plus, inject_Z_mult. change (inject_Z 2) with 2%Q.
        lra. }
      rewrite <- Zlt_Qlt in H. lia. }
  match goal with
  | |- (if ?a =? ?b then _ else _) = _ =>
      destruct (Nat.eqb_spec a b) as [E | E]; [exfalso; lia |]
  end.
  destruct (Nat.eqb_spec (Z.to_nat ws) 1); [lia | reflexivity].
Qed.

(** C8, amended.  The function does not check that the window lies on the
    axis, yet for the sizes it is meant for the slice assignment does: on
    an axis of whole longitudes with a spacing of one and with a whole
    centre, a window of an odd size of three or more that is not contained
    in the axis always raises the shape error, and nothing is returned
    (centre -10 with window size 5 on 0..359 is such a call).  On the axis
    0..359 a window beyond the axis passes silently for other sizes only:
    with window size 1 the centre -10 puts the single 1 at index 0 and the
    centre 400 leaves the mask all zero; with window size 4 the centre 358
    (window 356..360) puts the curve on 356..359. *)
Theorem window_beyond_axis_is_not_checked
  (repr : Q -> string) (keep : bool) (da : DataArray) (lon : list Q)
  (c : pynum) (ws : Z) (da360 : DataArray) :
  coord (coords da) "lon" = Some lon ->
  whole_inputs lon c ws = true ->
  uniformly_spaced lon 1 = true ->
  2 <= length lon ->
  (3 <= ws)%Z -> Z.odd ws = true ->
  (left_ext c ws < nth 0 lon 0
   \/ nth (length lon - 1) lon 0 < right_ext c ws)%Q ->
  well_formed da360 = true ->
  coord (coords da360) "lon" = Some lon360 ->
  hann_filter lon c ws = Raise BroadcastError
  /\ apply_hann_window_lon repr keep da c ws = Raise BroadcastError
  /\ hann_filter lon360 (PyInt (-10)) 1 = Ok (1%R :: repeat 0%R 359)
  /\ (exists out,
        apply_hann_window_lon repr keep da360 (PyInt (-10)) 1 = Ok out)
  /\ hann_filter lon360 (PyInt 400) 1 = Ok (repeat 0%R 360)
  /\ (exists out, apply_hann_window_lon repr keep da360 (PyInt 400) 1 = Ok out)
  /\ (nth 359 lon360 0 < right_ext (PyInt 358) 4)%Q
  /\ hann_filter lon360 (PyInt 358) 4 = Ok (repeat 0%R 356 ++ np.hanning 4)
  /\ (exists out, apply_hann_window_lon repr keep da360 (PyInt 358) 4 = Ok out).
Proof.
  intros Hlon Hwhole Hgrid Hn Hws Hodd Hoff Hwf Hlon360.
  pose proof (odd_window_off_axis lon c ws Hwhole Hgrid Hn Hws Hodd Hoff)
    as Hraise.
  split; [exact Hraise |].
  split; [exact (apply_raises repr keep da _ _ _ _ Hlon Hraise) |].
  split; [exact hann_filter_west_1 |].
  split; [exact (apply_returns repr keep da360 _ _ _ _ Hwf Hlon360
                   hann_filter_west_1) |].
  split; [exact hann_filter_east_1 |].
  split; [exact (apply_returns repr keep da360 _ _ _ _ Hwf Hlon360
                   hann_filter_east_1) |].
  split; [vm_compute; reflexivity |].
  split; [exact hann_filter_edge_4 |].
  exact (apply_returns repr keep da360 _ _ _ _ Hwf Hlon360 hann_filter_edge_4).
Qed.

Lemma window_beyond_axis_is_not_checked_witness :
  whole_inputs lon360 (PyInt (-10)) 5 = true
  /\ (left_ext (PyInt (-10)) 5 < nth 0 lon360 0)%Q
  /\ apply_hann_window_lon repr_whole false (ones_field lon360) (PyInt (-10)) 5
     = Raise BroadcastError
  /\ exists out,
       apply_hann_window_lon repr_whole false (ones_field lon360)
                             (PyInt (-10)) 1
       = Ok out.
Proof.
  assert (Hoff : (left_ext (PyInt (-10)) 5 < nth 0 lon360 0)%Q)
    by (vm_compute; reflexivity).
  split; [vm_compute; reflexivity |].
  split; [exact Hoff |].
  destruct (@window_beyond_axis_is_not_checked repr_whole false
              (ones_field lon360) lon360 (PyInt (-10)) 5 (ones_field lon360)
              eq_refl ltac:(vm_compute; reflexivity)
              ltac:(vm_compute; reflexivity) ltac:(vm_compute; lia)
              ltac:(lia) eq_refl (or_introl Hoff) eq_refl eq_refl)
    as (_ & Hraise & _ & Hsilent & _).
  split; [exact Hraise | exact Hsilent].
Defined.

(** ** The object store *)

Lemma lookup_lt (s : st.store) (l : st.loc) (o : st.object) :
  st.lookup s l = Some o -> l < length s.
Proof.
  induction s as [| o' s IH]; simpl; [discriminate |].
  destruct (Nat.eqb_spec l (length s)); intros H; [lia |].
  specialize (IH H). lia.
Qed.

Lemma snapshot_Some (s : st.store) (l : st.loc) (x : DataArray) :
  st.snapshot s l = Some x ->
  exists lx,
    st.lookup s l = Some (st.Labelled lx)
    /\ st.lookup s (st.l_values lx) = Some (st.Buffer (values x))
    /\ st.lookup s (st.l_attrs lx) = Some (st.Attrs (attrs x))
    /\ name x = st.l_name lx /\ dims x = st.l_dims lx
    /\ coords x = st.l_coords lx.
Proof.
  unfold st.snapshot. intros H.
  destruct (st.lookup s l) as [[a | d | lx] |] eqn:El; try discriminate.
  destruct (st.lookup s (st.l_values lx)) as [[a | d | lx'] |] eqn:Ev;
    try discriminate.
  destruct (st.lookup s (st.l_attrs lx)) as [[a' | d | lx'] |] eqn:Ea;
    try discriminate.
  injection H as <-. exists lx. simpl. repeat split; auto.
Qed.

Ltac decide_eqb :=
  match goal with
  | |- context [Nat.eqb ?a ?b] =>
      first
        [ replace (Nat.eqb a b) with true by (symmetry; apply Nat.eqb_eq; lia)
        | replace (Nat.eqb a b) with false by (symmetry; apply Nat.eqb_neq; lia) ]
  end.

Ltac store_simpl :=
  repeat (cbn [st.lookup st.update length]; try decide_eqb).

Lemma mbind_assoc {A B C : Type} (m : st.M A) (f : A -> st.M B)
  (k : B -> st.M C) (s : st.store) :
  st.mbind (st.mbind m f) k s = st.mbind m (fun a => st.mbind (f a) k) s.
Proof. unfold st.mbind. destruct (m s) as [[a | e] s']; reflexivity. Qed.

Lemma mbind_lift {A B : Type} (r : result A) (k : A -> st.M B) (s : st.store) :
  st.mbind (st.lift r) k s
  = match r with Ok a => k a s | Raise e => (Raise e, s) end.
Proof. reflexivity. Qed.

Lemma mbind_alloc {B : Type} (o : st.object) (k : st.loc -> st.M B)
  (s : st.store) :
  st.mbind (st.alloc o) k s = k (length s) (o :: s).
Proof. reflexivity. Qed.

Lemma mbind_write {B : Type} (l : st.loc) (o : st.object)
  (k : unit -> st.M B) (s : st.store) :
  st.mbind (st.write l o) k s = k tt (st.update s l o).
Proof. reflexivity. Qed.

Lemma mbind_read_buffer {B : Type} (l : st.loc)
  (k : np.ndarray -> st.M B) (s : st.store) :
  st.mbind (st.read_buffer l) k s
  = match st.lookup s l with
    | Some (st.Buffer a) => k a s
    | _ => (Raise TypeError, s)
    end.
Proof.
  unfold st.mbind, st.read_buffer.
  destruct (st.lookup s l) as [[a | d | x] |]; reflexivity.
Qed.

Lemma mbind_read_attrs {B : Type} (l : st.loc)
  (k : dict -> st.M B) (s : st.store) :
  st.mbind (st.read_attrs l) k s
  = match st.lookup s l with
    | Some (st.Attrs d) => k d s
    | _ => (Raise TypeError, s)
    end.
Proof.
  unfold st.mbind, st.read_attrs.
  destruct (st.lookup s l) as [[a | d | x] |]; reflexivity.
Qed.

Lemma mbind_read_labelled {B : Type} (l : st.loc)
  (k : st.labelled -> st.M B) (s : st.store) :
  st.mbind (st.read_labelled l) k s
  = match st.lookup s l with
    | Some (st.Labelled x) => k x s
    | _ => (Raise TypeError, s)
    end.
Proof.
  unfold st.mbind, st.read_labelled.
  destruct (st.lookup s l) as [[a | d | x] |]; reflexivity.
Qed.

(** Symbolic execution on the store: rewrite the next primitive by its
    equation and resolve what it reads. *)
Ltac st_norm :=
  store_simpl;
  cbn [st.l_values st.l_attrs st.l_name st.l_dims st.l_coords
       np.data np.shape st.vector bind fst snd].

Ltac st_prim :=
  match goal with
  | |- context [@st.mbind ?A ?C (@st.mbind ?A0 ?B0 ?m ?f) ?k ?s] =>
      rewrite (@mbind_assoc A0 B0 C m f k s)
  | |- context [@st.mbind _ ?B (st.alloc ?o) ?k ?s] =>
      rewrite (@mbind_alloc B o k s)
  | |- context [@st.mbind _ ?B (st.write ?l ?o) ?k ?s] =>
      rewrite (@mbind_write B l o k s)
  | |- context [@st.mbind _ ?B (st.read_buffer ?l) ?k ?s] =>
      rewrite (@mbind_read_buffer B l k s)
  | |- context [@st.mbind _ ?B (st.read_attrs ?l) ?k ?s] =>
      rewrite (@mbind_read_attrs B l k s)
  | |- context [@st.mbind _ ?B (st.read_labelled ?l) ?k ?s] =>
      rewrite (@mbind_read_labelled B l k s)
  | H : st.lookup ?s ?l = Some _ |- context [st.lookup ?s ?l] => rewrite H
  end;
  st_norm.

Ltac st_lift :=
  match goal with
  | |- context [@st.mbind ?A ?B (st.lift ?r) ?k ?s] =>
      rewrite (@mbind_lift A B r k s)
  end;
  st_norm.

Lemma extends_cons (s0 s : st.store) (o : st.object) :
  (exists ext, s = ext ++ s0) -> exists ext, o :: s = ext ++ s0.
Proof. intros [ext ->]. now exists (o :: ext). Qed.

Lemma extends_refl (s0 : st.store) : exists ext, s0 = ext ++ s0.
Proof. now exists []. Qed.

Ltac solve_extends := repeat apply extends_cons; apply extends_refl.

Lemma lookup_extends (s : st.store) (ext : list st.object) (l : st.loc) :
  l < length s -> st.lookup (ext ++ s) l = st.lookup s l.
Proof.
  intros Hl. induction ext as [| o ext IH]; simpl; [reflexivity |].
  rewrite length_app.
  destruct (Nat.eqb_spec l (length ext + length s)); [lia | exact IH].
Qed.

(** The function on the store computes what the pure function computes on
    the array the reference denotes; it only adds objects to the store; and
    the array it returns, with its values and attributes, is among the
    added objects. *)
Lemma st_apply_refines (repr : Q -> string) (keep : bool) (s : st.store)
  (da : st.loc) (x : DataArray) (c : pynum) (ws : Z) :
  st.snapshot s da = Some x ->
  (exists ext, snd (st.apply_hann_window_lon repr keep da c ws s) = ext ++ s)
  /\ match fst (st.apply_hann_window_lon repr keep da c ws s) with
     | Ok out =>
         exists y lo,
           apply_hann_window_lon repr keep x c ws = Ok y
           /\ st.snapshot (snd (st.apply_hann_window_lon repr keep da c ws s))
                          out = Some y
           /\ st.lookup (snd (st.apply_hann_window_lon repr keep da c ws s))
                        out = Some (st.Labelled lo)
           /\ length s <= out
           /\ length s <= st.l_values lo
           /\ length s <= st.l_attrs lo
     | Raise e => apply_hann_window_lon repr keep x c ws = Raise e
     end.
Proof.
  intros Hx.
  destruct (snapshot_Some s da x Hx) as (lx & Hda & Hv & Ha & Hn & Hd & Hc).
  pose proof (lookup_lt _ _ _ Hda) as Lda.
  pose proof (lookup_lt _ _ _ Hv) as Lv.
  pose proof (lookup_lt _ _ _ Ha) as La.
  unfold apply_hann_window_lon, getattr_lon, hann_filter, lon_indices,
    candidates.
  rewrite Hc.
  unfold st.apply_hann_window_lon, st.setitem_slice, st.copy, st.mul,
    st.new_DataArray, st.attrs_update, st.ret.
  repeat st_prim. st_lift.
  destruct (of_option AttributeError (coord (st.l_coords lx) "lon"))
    as [lon | e]; st_norm; [| split; [solve_extends | reflexivity]].
  st_lift.
  destruct (lon_resolution lon) as [res | e]; st_norm;
    [| split; [solve_extends | reflexivity]].
  repeat st_prim. st_lift.
  destruct (np.arange _ _ _) as [cs | e]; st_norm;
    [| split; [solve_extends | reflexivity]].
  st_lift.
  destruct (item _ 0) as [first | e]; st_norm;
    [| split; [solve_extends | reflexivity]].
  st_lift.
  destruct (item_last _) as [last | e]; st_norm;
    [| split; [solve_extends | reflexivity]].
  repeat st_prim. st_lift.
  destruct (np.setitem_slice _ _ _ _) as [mask | e]; st_norm;
    [| split; [solve_extends | reflexivity]].
  repeat st_prim. st_lift.
  destruct (item _ 0) as [t | e]; st_norm;
    [| split; [solve_extends | reflexivity]].
  st_lift.
  destruct (item _ 1) as [l | e]; st_norm;
    [| split; [solve_extends | reflexivity]].
  repeat st_prim. st_lift.
  destruct (np.multiply _ _) as [p | e]; st_norm;
    [| split; [solve_extends | reflexivity]].
  repeat st_prim.
  split; [solve_extends |].
  rewrite Hn, Hd.
  eexists. eexists.
  split; [reflexivity |].
  unfold st.snapshot. repeat (progress st_norm).
  split; [reflexivity |]. split; [reflexivity |].
  cbn [st.l_values st.l_attrs]. lia.
Qed.

Lemma lookup_ge (s : st.store) (l : st.loc) :
  length s <= l -> st.lookup s l = None.
Proof.
  intros Hl. destruct (st.lookup s l) as [o |] eqn:E; [| reflexivity].
  apply lookup_lt in E. lia.
Qed.

(** ** The input is not mutated (C5) *)

(** C5.  A call on a reference [da] that denotes the array [x], returning
    [out]: every object that was in the store before the call is unchanged,
    so [da] still denotes [x] (values, coordinates, dimensions, attributes
    and name); and the returned array is a new object whose values and
    attributes are new objects too, none of which existed before, so it
    shares neither with the input. *)
Theorem input_is_not_mutated
  (repr : Q -> string) (keep : bool) (s s' : st.store) (da out : st.loc)
  (x : DataArray) (c : pynum) (ws : Z) :
  st.snapshot s da = Some x ->
  st.apply_hann_window_lon repr keep da c ws s = (Ok out, s') ->
  (forall l, l < length s -> st.lookup s' l = st.lookup s l)
  /\ st.snapshot s' da = Some x
  /\ exists lo,
       st.lookup s' out = Some (st.Labelled lo)
       /\ st.lookup s out = None
       /\ st.lookup s (st.l_values lo) = None
       /\ st.lookup s (st.l_attrs lo) = None
       /\ out <> da.
Proof.
  intros Hx Hrun.
  destruct (st_apply_refines repr keep s da x c ws Hx) as [[ext Hext] Hres].
  rewrite Hrun in Hext, Hres. cbn [fst snd] in Hext, Hres. subst s'.
  destruct Hres as (y & lo & _ & _ & Hlo & Hout & Hval & Hattr).
  destruct (snapshot_Some s da x Hx) as (lx & Hda & Hv & Ha & _).
  pose proof (lookup_lt _ _ _ Hda) as Lda.
  pose proof (lookup_lt _ _ _ Hv) as Lv.
  pose proof (lookup_lt _ _ _ Ha) as La.
  split; [intros l Hl; now apply lookup_extends |].
  split.
  - unfold st.snapshot in *.
    rewrite (lookup_extends s ext da Lda), Hda in *.
    now rewrite (lookup_extends s ext _ Lv), (lookup_extends s ext _ La).
  - exists lo. repeat split; auto using lookup_ge. lia.
Qed.

Lemma input_is_not_mutated_witness :
  st.snapshot (st.store_of (ones_field lon360)) 2 = Some (ones_field lon360)
  /\ exists out s',
       st.apply_hann_window_lon repr_whole false 2 (PyInt 10) 5
         (st.store_of (ones_field lon360))
       = (Ok out, s')
       /\ st.snapshot s' 2 = Some (ones_field lon360)
       /\ out <> 2.
Proof.
  split; [reflexivity |].
  destruct (st.apply_hann_window_lon repr_whole false 2 (PyInt 10) 5
              (st.store_of (ones_field lon360))) as [[out | e] s'] eqn:Hrun;
    [| exfalso; vm_compute in Hrun; discriminate Hrun].
  exists out, s'. split; [reflexivity |].
  destruct (@input_is_not_mutated repr_whole false
              (st.store_of (ones_field lon360)) s' 2 out
              (ones_field lon360) (PyInt 10) 5 eq_refl Hrun)
    as (_ & Hsame & lo & _ & _ & _ & _ & Hne).
  split; [exact Hsame | exact Hne].
Defined.

(** ** Determinism and purity (C9) *)

(** C9.  Two calls, in any two stores, on references that denote equal
    arrays, with the same centre and window size: both raise the same
    exception or both return, and then the two returned references denote
    equal arrays (the array the pure function computes); and neither call
    changes an object that was in its store before.  The computation has no
    effect besides the store: its type has no other. *)
Theorem equal_inputs_equal_outputs
  (repr : Q -> string) (keep : bool) (s1 s2 : st.store) (da1 da2 : st.loc)
  (x : DataArray) (c : pynum) (ws : Z) :
  st.snapshot s1 da1 = Some x ->
  st.snapshot s2 da2 = Some x ->
  match fst (st.apply_hann_window_lon repr keep da1 c ws s1),
        fst (st.apply_hann_window_lon repr keep da2 c ws s2) with
  | Ok out1, Ok out2 =>
      exists y,
        apply_hann_window_lon repr keep x c ws = Ok y
        /\ st.snapshot (snd (st.apply_hann_window_lon repr keep da1 c ws s1))
                       out1 = Some y
        /\ st.snapshot (snd (st.apply_hann_window_lon repr keep da2 c ws s2))
                       out2 = Some y
  | Raise e1, Raise e2 => e1 = e2
  | _, _ => False
  end
  /\ (forall l, l < length s1 ->
        st.lookup (snd (st.apply_hann_window_lon repr keep da1 c ws s1)) l
        = st.lookup s1 l)
  /\ (forall l, l < length s2 ->
        st.lookup (snd (st.apply_hann_window_lon repr keep da2 c ws s2)) l
        = st.lookup s2 l).
Proof.
  intros H1 H2.
  destruct (st_apply_refines repr keep s1 da1 x c ws H1) as [[e1 E1] R1].
  destruct (st_apply_refines repr keep s2 da2 x c ws H2) as [[e2 E2] R2].
  split; [| split].
  - destruct (fst (st.apply_hann_window_lon repr keep da1 c ws s1))
      as [out1 | x1];
      destruct (fst (st.apply_hann_window_lon repr keep da2 c ws s2))
        as [out2 | x2].
    + destruct R1 as (y1 & lo1 & P1 & S1 & _).
      destruct R2 as (y2 & lo2 & P2 & S2 & _).
      rewrite P1 in P2. injection P2 as <-.
      exists y1. auto.
    + destruct R1 as (y1 & lo1 & P1 & _). congruence.
    + destruct R2 as (y2 & lo2 & P2 & _). congruence.
    + congruence.
  - intros l Hl. rewrite E1. now apply lookup_extends.
  - intros l Hl. rewrite E2. now apply lookup_extends.
Qed.

Lemma equal_inputs_equal_outputs_witness :
  exists out1 out2 y,
    fst (st.apply_hann_window_lon repr_whole false 2 (PyInt 10) 5
           (st.store_of (ones_field lon360))) = Ok out1
    /\ fst (st.apply_hann_window_lon repr_whole false 3 (PyInt 10) 5
              (st.store_with [st.Attrs []] (ones_field lon360))) = Ok out2
    /\ st.snapshot
         (snd (st.apply_hann_window_lon repr_whole false 2 (PyInt 10) 5
                 (st.store_of (ones_field lon360)))) out1 = Some y
    /\ st.snapshot
         (snd (st.apply_hann_window_lon repr_whole false 3 (PyInt 10) 5
                 (st.store_with [st.Attrs []] (ones_field lon360)))) out2
       = Some y.
Proof.
  pose proof (@equal_inputs_equal_outputs repr_whole false
                (st.store_of (ones_field lon360))
                (st.store_with [st.Attrs []] (ones_field lon360))
                2 3 (ones_field lon360) (PyInt 10) 5 eq_refl eq_refl)
    as [H _].
  destruct (fst (st.apply_hann_window_lon repr_whole false 2 (PyInt 10) 5
                   (st.store_of (ones_field lon360)))) as [out1 | e1] eqn:E1;
    [| exfalso; vm_compute in E1; discriminate E1].
  destruct (fst (st.apply_hann_window_lon repr_whole false 3 (PyInt 10) 5
                   (st.store_with [st.Attrs []] (ones_field lon360))))
    as [out2 | e2] eqn:E2;
    [| exfalso; vm_compute in E2; discriminate E2].
  destruct H as (y & _ & S1 & S2).
  exists out1, out2, y. repeat split; assumption.
Defined.

(** * Further properties of the function *)

(** ** The shape of the mask *)

(** A mask built for a window of two or more samples is the Hann curve
    placed at the first matched index, between zeros. *)
Lemma mask_structure (lon : list Q) (c : pynum) (ws : Z) (idx : list nat)
  (first : nat) (mask : list R) :
  (2 <= ws)%Z ->
  lon_indices lon c ws = Ok idx ->
  item idx 0 = Ok first ->
  hann_filter lon c ws = Ok mask ->
  first + Z.to_nat ws <= length lon
  /\ mask = repeat 0%R first ++ np.hanning ws
              ++ repeat 0%R (length lon - (first + Z.to_nat ws)).
Proof.
  intros Hws Hidx Hfirst Hmask.
  apply hann_filter_Ok in Hmask.
  destruct Hmask as (idx' & first' & last & Hidx' & Hfirst' & _ & Hset).
  rewrite Hidx in Hidx'. injection Hidx' as <-.
  rewrite Hfirst in Hfirst'. injection Hfirst' as <-.
  apply setitem_slice_Ok in Hset.
  unfold slice_lo, slice_hi, np.zeros in Hset.
  rewrite repeat_length, hanning_length in Hset.
  destruct Hset as [[Hlen ->] | [Hone _]]; [| lia].
  split; [lia |].
  rewrite firstn_repeat, skipn_repeat.
  f_equal; [f_equal; lia |]. f_equal. f_equal. lia.
Qed.

Lemma nth_zeros_curve_zeros (first rest k : nat) (v : list R) :
  nth k (repeat 0%R first ++ v ++ repeat 0%R rest) 0%R
  = if (first <=? k) && (k <? first + length v)
    then nth (k - first) v 0%R else 0%R.
Proof.
  destruct (Nat.leb_spec first k) as [Hge | Hlt]; simpl.
  - rewrite app_nth2 by (rewrite repeat_length; lia).
    rewrite repeat_length.
    destruct (Nat.ltb_spec k (first + length v)) as [Hin | Hout].
    + now rewrite app_nth1 by lia.
    + rewrite app_nth2 by lia. apply nth_repeat.
  - rewrite app_nth1 by (rewrite repeat_length; lia). apply nth_repeat.
Qed.

(** X1.  When the function returns for a window of two or more samples, the
    window is the index span [first, first + window_size) on the axis,
    [first] being the first matched index: the mask holds the sample of the
    Hann curve at its offset inside the span and exactly zero outside it,
    and every value of the output is the input value times the mask entry
    of its longitude. *)
Theorem output_is_input_times_placed_curve
  (repr : Q -> string) (keep : bool) (da : DataArray) (c : pynum) (ws : Z)
  (out : DataArray) :
  well_formed da = true ->
  (2 <= ws)%Z ->
  apply_hann_window_lon repr keep da c ws = Ok out ->
  exists lon t l idx first mask,
    coord (coords da) "lon" = Some lon
    /\ np.shape (values da) = [t; l; length lon]
    /\ lon_indices lon c ws = Ok idx
    /\ item idx 0 = Ok first
    /\ first + Z.to_nat ws <= length lon
    /\ hann_filter lon c ws = Ok mask
    /\ (forall k, k < length lon ->
          nth k mask 0%R
          = if (first <=? k) && (k <? first + Z.to_nat ws)
            then nth (k - first) (np.hanning ws) 0%R
            else 0%R)
    /\ forall q k, q < t * l -> k < length lon ->
         nth (q * length lon + k) (np.data (values out)) 0%R
         = (nth (q * length lon + k) (np.data (values da)) 0
            * nth k mask 0)%R.
Proof.
  intros Hwf Hws H.
  destruct (well_formed_inv da Hwf) as (lon & t & l & Hlon & Hs & _ & Hn).
  pose proof H as H'. apply apply_Ok in H'.
  destruct H' as (lon' & mask & _ & _ & _ & Hlon' & Hmask & _).
  rewrite Hlon in Hlon'. injection Hlon' as <-.
  pose proof Hmask as Hm. apply hann_filter_Ok in Hm.
  destruct Hm as (idx & first & last & Hidx & Hfirst & _ & _).
  destruct (mask_structure lon c ws idx first mask Hws Hidx Hfirst Hmask)
    as [Hfit Hshape].
  exists lon, t, l, idx, first, mask.
  split; [exact Hlon |]. split; [exact Hs |]. split; [exact Hidx |].
  split; [exact Hfirst |]. split; [exact Hfit |]. split; [exact Hmask |].
  split.
  - intros k Hk. rewrite Hshape, nth_zeros_curve_zeros, hanning_length.
    reflexivity.
  - intros q k Hq Hk.
    destruct (apply_values_nth repr keep da c ws out lon _ t l
                Hlon Hs Hn Hmask H) as [_ Hnth].
    exact (Hnth q k Hq Hk).
Qed.

Lemma output_is_input_times_placed_curve_witness :
  well_formed (ones_field lon360) = true
  /\ exists out mask,
       apply_hann_window_lon repr_whole false (ones_field lon360) (PyInt 10) 5
       = Ok out
       /\ hann_filter lon360 (PyInt 10) 5 = Ok mask
       /\ nth 7 mask 0%R = 0%R
       /\ nth 9 mask 0%R = nth 1 (np.hanning 5) 0%R
       /\ nth 9 (np.data (values out)) 0%R = (1 * nth 9 mask 0)%R.
Proof.
  split; [reflexivity |].
  destruct (apply_hann_window_lon repr_whole false (ones_field lon360)
              (PyInt 10) 5) as [out | e] eqn:Hrun;
    [| exfalso; vm_compute in Hrun; discriminate Hrun].
  destruct (@output_is_input_times_placed_curve repr_whole false
              (ones_field lon360) (PyInt 10) 5 out eq_refl ltac:(lia) Hrun)
    as (lon & t & l & idx & first & mask & Hlon & Hs & Hidx & Hfirst & _
        & Hmask & Hm & Hnth).
  injection Hlon as <-. injection Hs as <- <-.
  rewrite lon_indices_10_5 in Hidx. injection Hidx as <-.
  injection Hfirst as <-.
  exists out, mask. split; [reflexivity |]. split; [exact Hmask |].
  split; [exact (Hm 7 ltac:(vm_compute; lia)) |].
  split; [exact (Hm 9 ltac:(vm_compute; lia)) |].
  exact (Hnth 0 9 ltac:(lia) ltac:(vm_compute; lia)).
Defined.

(** ** A window larger than the axis *)

(** X2.  A window of two or more samples that has more samples than the
    axis has longitudes is never applied: whatever the centre, the call
    raises. *)
Theorem oversized_window_raises
  (repr : Q -> string) (keep : bool) (da : DataArray) (c : pynum) (ws : Z)
  (lon : list Q) :
  coord (coords da) "lon" = Some lon ->
  (2 <= ws)%Z ->
  length lon < Z.to_nat ws ->
  exists e, apply_hann_window_lon repr keep da c ws = Raise e.
Proof.
  intros Hlon Hws Hbig.
  destruct (hann_filter lon c ws) as [mask | e] eqn:Hmask.
  - exfalso. pose proof Hmask as Hm. apply hann_filter_Ok in Hm.
    destruct Hm as (idx & first & last & Hidx & Hfirst & _ & _).
    destruct (mask_structure lon c ws idx first mask Hws Hidx Hfirst Hmask)
      as [Hfit _].
    lia.
  - exists e. now apply apply_raises with (lon := lon).
Qed.

Lemma oversized_window_raises_witness :
  exists e,
    apply_hann_window_lon repr_whole false (ones_field lon3) (PyInt 1) 5
    = Raise e.
Proof.
  exact (@oversized_window_raises repr_whole false (ones_field lon3)
           (PyInt 1) 5 lon3 eq_refl ltac:(lia) ltac:(vm_compute; lia)).
Defined.

(** ** The taper never amplifies *)

Lemma Forall_concat_repeat (P : R -> Prop) (v : list R) (m : nat) :
  Forall P v -> Forall P (concat (repeat v m)).
Proof.
  intros Hv. induction m as [| m IH]; simpl; [constructor |].
  apply Forall_app. split; assumption.
Qed.

Lemma map2_taper_bound (xs ms : list R) (i : nat) :
  Forall (fun m => (0 <= m <= 1)%R) ms ->
  (Rabs (nth i (np.map2 Rmult xs ms) 0) <= Rabs (nth i xs 0))%R.
Proof.
  intros Hms. revert xs i.
  induction Hms as [| m ms Hm Hms IH]; intros [| x xs] [| i]; simpl;
    try (rewrite Rabs_R0; apply Rabs_pos); try apply Rle_refl.
  - rewrite Rabs_mult, (Rabs_pos_eq m) by lra.
    pose proof (Rabs_pos x). nra.
  - apply IH.
Qed.

(** X3.  Whatever the centre and the window size, no value of the returned
    array is larger in absolute value than the input value at the same
    place. *)
Theorem output_never_exceeds_input
  (repr : Q -> string) (keep : bool) (da : DataArray) (c : pynum) (ws : Z)
  (out : DataArray) (i : nat) :
  apply_hann_window_lon repr keep da c ws = Ok out ->
  (Rabs (nth i (np.data (values out)) 0)
   <= Rabs (nth i (np.data (values da)) 0))%R.
Proof.
  intros H. apply apply_Ok in H.
  destruct H as (lon & mask & t & l & w & _ & Hmask & _ & _ & Hmul & ->).
  apply multiply_Ok in Hmul. destruct Hmul as [_ ->].
  cbn [values np.data]. apply map2_taper_bound.
  unfold np.tile. cbn [np.data]. apply Forall_concat_repeat.
  destruct (hann_filter_Ok lon c ws mask Hmask)
    as (idx & first & last & _ & _ & _ & Hset).
  apply setitem_slice_Forall with (P := fun m => (0 <= m <= 1)%R) in Hset;
    auto using hanning_bounds.
  unfold np.zeros. apply Forall_forall. intros x Hx.
  apply repeat_spec in Hx. subst x. lra.
Qed.

Lemma output_never_exceeds_input_witness :
  exists out,
    apply_hann_window_lon repr_whole false (ones_field lon360) (PyInt 10) 5
    = Ok out
    /\ (Rabs (nth 9 (np.data (values out)) 0) <= Rabs 1)%R.
Proof.
  destruct (apply_hann_window_lon repr_whole false (ones_field lon360)
              (PyInt 10) 5) as [out | e] eqn:Hrun;
    [| exfalso; vm_compute in Hrun; discriminate Hrun].
  exists out. split; [reflexivity |].
  exact (@output_never_exceeds_input repr_whole false (ones_field lon360)
           (PyInt 10) 5 out 9 Hrun).
Defined.

(** ** Axes the function cannot use *)

(** X7.  The function needs longitudes, at least two of them, the first
    two different.  An array that has no coordinate [lon] (and neither a
    dimension nor an attribute of that name, which [da.lon] would resolve
    too) raises the attribute error; a coordinate with fewer than two
    longitudes raises the index error; and with two equal first longitudes
    [np.arange] has a step of zero and raises. *)
Theorem unusable_axis_raises
  (repr : Q -> string) (keep : bool) (da : DataArray) (c : pynum) (ws : Z) :
  (coord (coords da) "lon" = None ->
   ~ In "lon" (dims da) ->
   dict_get (attrs da) "lon" = None ->
   apply_hann_window_lon repr keep da c ws = Raise AttributeError)
  /\ (forall lon,
        coord (coords da) "lon" = Some lon -> length lon < 2 ->
        apply_hann_window_lon repr keep da c ws = Raise IndexError)
  /\ (forall lon,
        coord (coords da) "lon" = Some lon -> 2 <= length lon ->
        (nth 0 lon 0 == nth 1 lon 0)%Q ->
        apply_hann_window_lon repr keep da c ws = Raise ZeroStep).
Proof.
  repeat split.
  - intros Hlon _ _. unfold apply_hann_window_lon, getattr_lon.
    now rewrite Hlon.
  - intros lon Hlon Hshort. apply apply_raises with (lon := lon); auto.
    unfold hann_filter, lon_indices, candidates, lon_resolution, item.
    destruct lon as [| a0 [| a1 rest]]; simpl in *; try lia; reflexivity.
  - intros lon Hlon Hlen Heq. apply apply_raises with (lon := lon); auto.
    unfold hann_filter, lon_indices, candidates.
    rewrite lon_resolution_Ok by exact Hlen. cbn [bind]. unfold np.arange.
    assert (E : (Qabs (nth 0 lon 0 - nth 1 lon 0) == 0)%Q).
    { assert (E0 : (nth 0 lon 0 - nth 1 lon 0 == 0)%Q) by lra.
      rewrite E0. reflexivity. }
    apply Qeq_eq_bool in E. rewrite E. reflexivity.
Qed.

Lemma unusable_axis_raises_witness :
  apply_hann_window_lon repr_whole false unlabelled_field (PyInt 1) 3
  = Raise AttributeError
  /\ apply_hann_window_lon repr_whole false (ones_field [0%Q]) (PyInt 1) 3
     = Raise IndexError
  /\ apply_hann_window_lon repr_whole false (ones_field [1; 1; 2]%Q)
                           (PyInt 1) 3
     = Raise ZeroStep.
Proof.
  split; [| split].
  - apply (proj1 (@unusable_axis_raises repr_whole false unlabelled_field
                    (PyInt 1) 3)).
    + reflexivity.
    + simpl. intros [H | [H | [H | []]]]; discriminate H.
    + reflexivity.
  - apply (proj1 (proj2 (@unusable_axis_raises repr_whole false
                           (ones_field [0%Q]) (PyInt 1) 3)) [0%Q]).
    + reflexivity.
    + simpl. lia.
  - apply (proj2 (proj2 (@unusable_axis_raises repr_whole false
                           (ones_field [1; 1; 2]%Q) (PyInt 1) 3))
             [1; 1; 2]%Q).
    + reflexivity.
    + simpl. lia.
    + reflexivity.
Defined.

(** ** Windows of no sample, of one sample, and negative sizes *)

Lemma Qabs_nonzero (x : Q) : ~ (x == 0)%Q -> (0 < Qabs x)%Q.
Proof.
  intros Hx. apply Qabs_case; intros H.
  - destruct (Qlt_le_dec 0 x) as [Hlt | Hle]; [exact Hlt |].
    exfalso. apply Hx. lra.
  - destruct (Qlt_le_dec 0 (- x)) as [Hlt | Hle]; [exact Hlt |].
    exfalso. apply Hx. lra.
Qed.

Lemma arange_Ok (start stop step : Q) :
  ~ (step == 0)%Q ->
  np.arange start stop step
  = Ok (map (fun i => (start + inject_Z (Z.of_nat i) * step)%Q)
            (seq 0 (Z.to_nat (Qceiling ((stop - start) / step)%Q)))).
Proof.
  intros Hstep. unfold np.arange.
  destruct (Qeq_bool step 0) eqn:E; [| reflexivity].
  apply Qeq_bool_eq in E. contradiction.
Qed.

(** With [window_size div 2 = 0] (sizes 0 and 1, and -1) there is one
    candidate, the centre itself. *)
Lemma single_candidate (lon : list Q) (c : pynum) (ws : Z) :
  (ws ÷ 2 = 0)%Z ->
  2 <= length lon ->
  ~ (nth 0 lon 0 == nth 1 lon 0)%Q ->
  exists v,
    (v == num_value c)%Q
    /\ candidates lon c ws = Ok [v]
    /\ lon_indices lon c ws = Ok [np.searchsorted1 lon v].
Proof.
  intros Hh Hlen Hne.
  assert (Hres : (0 < Qabs (nth 0 lon 0 - nth 1 lon 0))%Q)
    by (apply Qabs_nonzero; intros E; apply Hne; lra).
  set (res := Qabs (nth 0 lon 0 - nth 1 lon 0)%Q) in *.
  assert (Hcand : candidates lon c ws
                  = Ok [(left_ext c ws + inject_Z (Z.of_nat 0) * res)%Q]).
  { unfold candidates. rewrite lon_resolution_Ok by exact Hlen. fold res.
    cbn [bind]. rewrite arange_Ok by lra.
    rewrite (Qceiling_comp _ (inject_Z 1)).
    - rewrite Qceiling_Z. reflexivity.
    - unfold left_ext, right_ext. rewrite Hh.
      change (inject_Z 0) with 0%Q. change (inject_Z 1) with 1%Q.
      field. lra. }
  exists (left_ext c ws + inject_Z (Z.of_nat 0) * res)%Q.
  repeat split.
  - unfold left_ext. rewrite Hh. simpl Z.of_nat.
    change (inject_Z 0) with 0%Q. ring.
  - exact Hcand.
  - unfold lon_indices. rewrite Hcand. reflexivity.
Qed.

Lemma insertion_point_Qeq (a : list Q) (v w : Q) (r : nat) :
  (v == w)%Q -> insertion_point a v r -> insertion_point a w r.
Proof.
  intros E (Hr & Hlo & Hhi). repeat split.
  - exact Hr.
  - intros k Hk. rewrite <- E. now apply Hlo.
  - intros k Hk Hkn. rewrite <- E. now apply Hhi.
Qed.

(** The index the single candidate is matched to, on an ascending axis that
    does not end before the centre. *)
Lemma centre_index_on_axis (lon : list Q) (c : pynum) (v : Q) :
  ascending lon -> 0 < length lon ->
  (v == num_value c)%Q ->
  (num_value c <= nth (length lon - 1) lon 0)%Q ->
  np.searchsorted1 lon v < length lon
  /\ insertion_point lon (num_value c) (np.searchsorted1 lon v).
Proof.
  intros Hasc Hn Hv Hc.
  pose proof (searchsorted1_spec lon v Hasc) as Hspec.
  split; [| exact (insertion_point_Qeq lon v _ _ Hv Hspec)].
  destruct Hspec as (Hr & Hlo & _).
  destruct (Nat.eq_dec (np.searchsorted1 lon v) (length lon)) as [E | E];
    [| lia].
  exfalso. specialize (Hlo (length lon - 1) ltac:(lia)). lra.
Qed.

Lemma hann_filter_single (lon : list Q) (c : pynum) (ws : Z) (i : nat) :
  lon_indices lon c ws = Ok [i] ->
  hann_filter lon c ws
  = np.setitem_slice (np.zeros (length lon)) i (i + 1) (np.hanning ws).
Proof. intros H. unfold hann_filter. now rewrite H. Qed.

(** X5.  A window size of zero is refused on every ascending axis of whole
    longitudes that does not end before the (whole) centre: the one
    candidate is matched to an index on the axis, the empty curve does not
    fit the one-entry span, and the function raises the shape error. *)
Theorem window_of_zero_raises
  (repr : Q -> string) (keep : bool) (da : DataArray) (c : pynum)
  (lon : list Q) :
  coord (coords da) "lon" = Some lon ->
  whole_inputs lon c 0 = true ->
  ascending lon ->
  2 <= length lon ->
  ~ (nth 0 lon 0 == nth 1 lon 0)%Q ->
  (num_value c <= nth (length lon - 1) lon 0)%Q ->
  hann_filter lon c 0 = Raise BroadcastError
  /\ apply_hann_window_lon repr keep da c 0 = Raise BroadcastError.
Proof.
  intros Hlon _ Hasc Hlen Hne Hc.
  destruct (single_candidate lon c 0 eq_refl Hlen Hne) as (v & Hv & _ & Hidx).
  destruct (centre_index_on_axis lon c v Hasc ltac:(lia) Hv Hc) as [Hi _].
  assert (H : hann_filter lon c 0 = Raise BroadcastError).
  { rewrite (hann_filter_single lon c 0 _ Hidx).
    unfold np.setitem_slice, np.zeros. rewrite repeat_length. simpl length.
    destruct (Nat.eqb_spec 0
                (Nat.max (Nat.min (np.searchsorted1 lon v) (length lon))
                   (Nat.min (np.searchsorted1 lon v + 1) (length lon))
                 - Nat.min (np.searchsorted1 lon v) (length lon)));
      [lia | reflexivity]. }
  split; [exact H | now apply apply_raises with (lon := lon)].
Qed.

Lemma ascending_lon3 : ascending lon3.
Proof.
  intros i j Hij Hj. simpl in Hj.
  destruct i as [| [| [| i]]]; destruct j as [| [| [| j]]]; simpl; try lia;
    lra.
Qed.

Lemma window_of_zero_raises_witness :
  apply_hann_window_lon repr_whole false (ones_field lon3) (PyInt 1) 0
  = Raise BroadcastError.
Proof.
  apply (@window_of_zero_raises repr_whole false (ones_field lon3) (PyInt 1)
           lon3 eq_refl ltac:(vm_compute; reflexivity) ascending_lon3
           ltac:(vm_compute; lia)
           ltac:(vm_compute; discriminate) ltac:(vm_compute; discriminate)).
Defined.

(** X6.  A window of one sample keeps one column: on an ascending axis of
    whole longitudes that does not end before the (whole) centre, the mask
    is 1 at the first longitude that is not smaller than the centre and 0
    elsewhere, and every output value is the input value times that 1 or
    that 0. *)
Theorem window_of_one_keeps_one_column
  (repr : Q -> string) (keep : bool) (da : DataArray) (c : pynum)
  (lon : list Q) (t l : nat) :
  well_formed da = true ->
  coord (coords da) "lon" = Some lon ->
  np.shape (values da) = [t; l; length lon] ->
  whole_inputs lon c 1 = true ->
  ascending lon ->
  2 <= length lon ->
  ~ (nth 0 lon 0 == nth 1 lon 0)%Q ->
  (num_value c <= nth (length lon - 1) lon 0)%Q ->
  exists i out,
    i < length lon
    /\ insertion_point lon (num_value c) i
    /\ hann_filter lon c 1
       = Ok (repeat 0%R i ++ [1%R] ++ repeat 0%R (length lon - (i + 1)))
    /\ apply_hann_window_lon repr keep da c 1 = Ok out
    /\ forall q k, q < t * l -> k < length lon ->
         nth (q * length lon + k) (np.data (values out)) 0%R
         = (nth (q * length lon + k) (np.data (values da)) 0
            * (if k =? i then 1 else 0))%R.
Proof.
  intros Hwf Hlon Hs _ Hasc Hlen Hne Hc.
  destruct (single_candidate lon c 1 eq_refl Hlen Hne) as (v & Hv & _ & Hidx).
  destruct (centre_index_on_axis lon c v Hasc ltac:(lia) Hv Hc) as [Hi Hins].
  set (i := np.searchsorted1 lon v) in *.
  assert (Hmask : hann_filter lon c 1
            = Ok (repeat 0%R i ++ [1%R] ++ repeat 0%R (length lon - (i + 1)))).
  { rewrite (hann_filter_single lon c 1 _ Hidx).
    unfold np.setitem_slice, np.zeros. rewrite repeat_length.
    change (np.hanning 1) with [1%R]. simpl length.
    replace (Nat.min i (length lon)) with i by lia.
    replace (Nat.max i (Nat.min (i + 1) (length lon))) with (i + 1) by lia.
    replace (i + 1 - i) with 1 by lia. simpl Nat.eqb. cbv iota.
    now rewrite firstn_repeat, skipn_repeat, Nat.min_l by lia. }
  destruct (apply_returns repr keep da c 1 lon _ Hwf Hlon Hmask) as [out Hout].
  exists i, out. repeat split; auto; try apply Hins.
  intros q k Hq Hk.
  destruct (well_formed_inv da Hwf) as (lon' & t' & l' & Hlon' & Hs' & _ & Hn).
  rewrite Hlon in Hlon'. injection Hlon' as <-.
  rewrite Hs in Hs'. injection Hs' as <- <-.
  destruct (apply_values_nth repr keep da c 1 out lon _ t l
              Hlon Hs Hn Hmask Hout) as [_ Hnth].
  rewrite (Hnth q k Hq Hk), nth_zeros_curve_zeros. simpl length.
  f_equal.
  destruct (Nat.eqb_spec k i) as [-> | Hki].
  - rewrite Nat.leb_refl.
    destruct (Nat.ltb_spec i (i + 1)); [| lia].
    simpl andb. rewrite Nat.sub_diag. reflexivity.
  - destruct (Nat.leb_spec i k); destruct (Nat.ltb_spec k (i + 1));
      simpl andb; cbv iota; try reflexivity; lia.
Qed.

Lemma window_of_one_keeps_one_column_witness :
  exists out,
    apply_hann_window_lon repr_whole false (ones_field lon3) (PyInt 1) 1
    = Ok out
    /\ nth 0 (np.data (values out)) 0%R = (1 * 0)%R
    /\ nth 1 (np.data (values out)) 0%R = (1 * 1)%R.
Proof.
  destruct (@window_of_one_keeps_one_column repr_whole false
              (ones_field lon3) (PyInt 1) lon3 1 1 eq_refl eq_refl eq_refl
              ltac:(vm_compute; reflexivity)
              ascending_lon3 ltac:(vm_compute; lia)
              ltac:(vm_compute; discriminate) ltac:(vm_compute; discriminate))
    as (i & out & Hi & Hins & Hmask & Hout & Hnth).
  assert (Ei : i = 1).
  { apply (insertion_point_unique lon3 (num_value (PyInt 1)) i 1 Hins).
    repeat split; simpl; try lia.
    - intros k Hk. destruct k as [| k]; [reflexivity | lia].
    - intros k Hk Hk3. destruct k as [| [| [| k]]]; simpl; try lia;
        discriminate. }
  subst i. exists out. split; [exact Hout |].
  split.
  - exact (Hnth 0 0 ltac:(lia) ltac:(simpl; lia)).
  - exact (Hnth 0 1 ltac:(lia) ltac:(simpl; lia)).
Defined.

(** X4.  A window size of zero or less has an empty curve: when the
    function returns for it at all, nothing was assigned, the mask is zero
    everywhere, and every output value is the input value times a zero. *)
Theorem empty_window_leaves_zero_mask
  (repr : Q -> string) (keep : bool) (da : DataArray) (c : pynum) (ws : Z)
  (out : DataArray) :
  well_formed da = true ->
  (ws <= 0)%Z ->
  apply_hann_window_lon repr keep da c ws = Ok out ->
  exists lon t l,
    coord (coords da) "lon" = Some lon
    /\ np.shape (values da) = [t; l; length lon]
    /\ hann_filter lon c ws = Ok (np.zeros (length lon))
    /\ forall q k, q < t * l -> k < length lon ->
         nth k (np.zeros (length lon)) 0%R = 0%R
         /\ nth (q * length lon + k) (np.data (values out)) 0%R
            = (nth (q * length lon + k) (np.data (values da)) 0
               * nth k (np.zeros (length lon)) 0)%R.
Proof.
  intros Hwf Hws H.
  destruct (well_formed_inv da Hwf) as (lon & t & l & Hlon & Hs & _ & Hn).
  pose proof H as H'. apply apply_Ok in H'.
  destruct H' as (lon' & mask & _ & _ & _ & Hlon' & Hmask & _).
  rewrite Hlon in Hlon'. injection Hlon' as <-.
  assert (Hzero : mask = np.zeros (length lon)).
  { destruct (hann_filter_Ok lon c ws mask Hmask)
      as (idx & first & last & _ & _ & _ & Hset).
    apply setitem_slice_Ok in Hset. rewrite hanning_length in Hset.
    assert (Hempty : np.hanning ws = []).
    { pose proof (hanning_length ws) as Hlen.
      destruct (np.hanning ws); [reflexivity | simpl in Hlen; lia]. }
    rewrite Hempty in Hset. cbn [app] in Hset.
    destruct Hset as [[Hlen ->] | [Hone _]]; [| lia].
    unfold slice_lo, slice_hi in *.
    replace (Nat.max (Nat.min first (length (np.zeros (length lon))))
               (Nat.min (last + 1) (length (np.zeros (length lon)))))
      with (Nat.min first (length (np.zeros (length lon)))) by lia.
    apply firstn_skipn. }
  subst mask. exists lon, t, l.
  split; [exact Hlon |]. split; [exact Hs |]. split; [exact Hmask |].
  intros q k Hq Hk. split; [apply nth_repeat |].
  destruct (apply_values_nth repr keep da c ws out lon _ t l
              Hlon Hs Hn Hmask H) as [_ Hnth].
  exact (Hnth q k Hq Hk).
Qed.

Lemma empty_window_leaves_zero_mask_witness :
  exists out,
    apply_hann_window_lon repr_whole false (ones_field lon3) (PyInt 9) 0
    = Ok out
    /\ hann_filter lon3 (PyInt 9) 0 = Ok [0; 0; 0]%R
    /\ nth 1 (np.data (values out)) 0%R = (1 * 0)%R.
Proof.
  destruct (apply_hann_window_lon repr_whole false (ones_field lon3)
              (PyInt 9) 0) as [out | e] eqn:Hrun;
    [| exfalso; vm_compute in Hrun; discriminate Hrun].
  exists out. split; [reflexivity |].
  destruct (@empty_window_leaves_zero_mask repr_whole false (ones_field lon3)
              (PyInt 9) 0 out eq_refl ltac:(lia) Hrun)
    as (lon & t & l & Hlon & Hs & Hmask & Hnth).
  injection Hlon as <-. injection Hs as <- <-.
  split; [exact Hmask |].
  exact (proj2 (Hnth 0 1 ltac:(lia) ltac:(simpl; lia))).
Defined.

(** X8.  A negative window size turns the two ends of the window around.
    On whole inputs, when [2 * int(window_size / 2)] plus the spacing of
    the axis is not positive, [np.arange] yields no candidate and taking
    the first matched index raises the index error; on an axis of spacing
    one this is every window size of -2 or less. *)
Theorem negative_window_raises_index_error
  (repr : Q -> string) (keep : bool) (da : DataArray) (c : pynum) (ws : Z)
  (lon : list Q) :
  coord (coords da) "lon" = Some lon ->
  whole_inputs lon c ws = true ->
  2 <= length lon ->
  ~ (nth 0 lon 0 == nth 1 lon 0)%Q ->
  (inject_Z (2 * (ws ÷ 2)) + Qabs (nth 0 lon 0 - nth 1 lon 0) <= 0)%Q ->
  candidates lon c ws = Ok []
  /\ apply_hann_window_lon repr keep da c ws = Raise IndexError.
Proof.
  intros Hlon _ Hlen Hne Hneg.
  assert (Hres : (0 < Qabs (nth 0 lon 0 - nth 1 lon 0))%Q)
    by (apply Qabs_nonzero; intros E; apply Hne; lra).
  set (res := Qabs (nth 0 lon 0 - nth 1 lon 0)%Q) in *.
  assert (Hcand : candidates lon c ws = Ok []).
  { unfold candidates. rewrite lon_resolution_Ok by exact Hlen. fold res.
    cbn [bind]. rewrite arange_Ok by lra.
    assert (Hz : (Qceiling ((right_ext c ws + res - left_ext c ws) / res)
                  <= 0)%Z).
    { rewrite <- (Qceiling_Z 0). apply Qceiling_resp_le.
      change (inject_Z 0) with 0%Q.
      apply Qle_shift_div_r; [exact Hres |].
      unfold left_ext, right_ext.
      rewrite inject_Z_mult in Hneg. change (inject_Z 2) with 2%Q in Hneg.
      lra. }
    replace (Z.to_nat _) with 0 by lia. reflexivity. }
  split; [exact Hcand |].
  apply apply_raises with (lon := lon); [exact Hlon |].
  unfold hann_filter, lon_indices. rewrite Hcand. reflexivity.
Qed.

Lemma negative_window_raises_index_error_witness :
  apply_hann_window_lon repr_whole false (ones_field lon3) (PyInt 1) (-2)
  = Raise IndexError.
Proof.
  apply (@negative_window_raises_index_error repr_whole false
           (ones_field lon3) (PyInt 1) (-2) lon3 eq_refl
           ltac:(vm_compute; reflexivity)
           ltac:(vm_compute; lia) ltac:(vm_compute; discriminate)
           ltac:(vm_compute; discriminate)).
Defined.

(** ** Symmetry of the mask *)

Lemma hanning_symmetric (M : Z) (i : nat) (d : R) :
  (2 <= M)%Z -> i < Z.to_nat M ->
  nth i (np.hanning M) d = nth (Z.to_nat M - 1 - i) (np.hanning M) d.
Proof.
  intros HM Hi. rewrite !hanning_nth by lia.
  do 2 f_equal.
  replace (1 - M + Z.of_nat (Z.to_nat M - 1 - i) * 2)%Z
    with (- (1 - M + Z.of_nat i * 2))%Z by lia.
  rewrite opp_IZR.
  replace (PI * - IZR (1 - M + Z.of_nat i * 2) / IZR (M - 1))%R
    with (- (PI * IZR (1 - M + Z.of_nat i * 2) / IZR (M - 1)))%R
    by (unfold Rdiv; ring).
  now rewrite cos_neg.
Qed.

(** X12.  The mask is symmetric within the window: for a window of two or
    more samples, the entry [i] places after the first matched index
    equals the entry [i] places before the last index of the window. *)
Theorem mask_symmetric_in_window
  (lon : list Q) (c : pynum) (ws : Z) (idx : list nat) (first : nat)
  (mask : list R) (i : nat) :
  (2 <= ws)%Z ->
  lon_indices lon c ws = Ok idx ->
  item idx 0 = Ok first ->
  hann_filter lon c ws = Ok mask ->
  i < Z.to_nat ws ->
  nth (first + i) mask 0%R = nth (first + (Z.to_nat ws - 1 - i)) mask 0%R.
Proof.
  intros Hws Hidx Hfirst Hmask Hi.
  destruct (mask_structure lon c ws idx first mask Hws Hidx Hfirst Hmask)
    as [_ ->].
  rewrite !nth_zeros_curve_zeros, hanning_length.
  destruct (Nat.leb_spec first (first + i)); [| lia].
  destruct (Nat.ltb_spec (first + i) (first + Z.to_nat ws)); [| lia].
  destruct (Nat.leb_spec first (first + (Z.to_nat ws - 1 - i))); [| lia].
  destruct (Nat.ltb_spec (first + (Z.to_nat ws - 1 - i))
              (first + Z.to_nat ws)); [| lia].
  simpl andb. cbv iota.
  replace (first + i - first) with i by lia.
  replace (first + (Z.to_nat ws - 1 - i) - first) with (Z.to_nat ws - 1 - i)
    by lia.
  now apply hanning_symmetric.
Qed.

Lemma mask_symmetric_in_window_witness :
  exists mask,
    hann_filter lon360 (PyInt 10) 5 = Ok mask
    /\ nth 9 mask 0%R = nth 11 mask 0%R.
Proof.
  destruct (hann_filter lon360 (PyInt 10) 5) as [mask | e] eqn:Hrun;
    [| exfalso; vm_compute in Hrun; discriminate Hrun].
  exists mask. split; [reflexivity |].
  exact (@mask_symmetric_in_window lon360 (PyInt 10) 5 [8; 9; 10; 11; 12] 8
           mask 1 ltac:(lia) lon_indices_10_5 eq_refl Hrun
           ltac:(vm_compute; lia)).
Defined.

(** ** Two windows, one after the other *)

(** X13.  Two windows can be applied in either order: when windowing with
    [(c1, ws1)] and then with [(c2, ws2)] returns, so does windowing in the
    other order.  Each final array holds the input times the two masks,
    multiplied in the order of application, and the two have the same
    shape and coordinates (their descriptions name the window applied
    last). *)
Theorem two_windows_in_either_order
  (repr : Q -> string) (keep : bool) (da : DataArray)
  (c1 c2 : pynum) (ws1 ws2 : Z) (a ab : DataArray) :
  well_formed da = true ->
  apply_hann_window_lon repr keep da c1 ws1 = Ok a ->
  apply_hann_window_lon repr keep a c2 ws2 = Ok ab ->
  exists lon t l m1 m2 b ba,
    coord (coords da) "lon" = Some lon
    /\ np.shape (values da) = [t; l; length lon]
    /\ hann_filter lon c1 ws1 = Ok m1
    /\ hann_filter lon c2 ws2 = Ok m2
    /\ apply_hann_window_lon repr keep da c2 ws2 = Ok b
    /\ apply_hann_window_lon repr keep b c1 ws1 = Ok ba
    /\ np.data (values ab)
       = np.map2 Rmult
           (np.map2 Rmult (np.data (values da)) (np.data (np.tile m1 t l)))
           (np.data (np.tile m2 t l))
    /\ np.data (values ba)
       = np.map2 Rmult
           (np.map2 Rmult (np.data (values da)) (np.data (np.tile m2 t l)))
           (np.data (np.tile m1 t l))
    /\ np.shape (values ba) = np.shape (values ab)
    /\ coords ba = coords ab.
Proof.
  intros Hwf Ha Hab.
  destruct (well_formed_inv da Hwf) as (lon & t & l & Hlon & Hs & _ & Hn).
  destruct (apply_shape repr keep da c1 ws1 a Hwf Ha)
    as (Hsa & Hna & Hca & Hwfa).
  assert (Hlona : coord (coords a) "lon" = Some lon) by now rewrite Hca.
  pose proof Ha as Ha'. apply apply_Ok in Ha'.
  destruct Ha' as (lon1 & m1 & _ & _ & _ & Hlon1 & Hm1 & _).
  rewrite Hlon in Hlon1. injection Hlon1 as <-.
  pose proof Hab as Hab'. apply apply_Ok in Hab'.
  destruct Hab' as (lon2 & m2 & _ & _ & _ & Hlon2 & Hm2 & _).
  rewrite Hlona in Hlon2. injection Hlon2 as <-.
  destruct (apply_returns repr keep da c2 ws2 lon m2 Hwf Hlon Hm2) as [b Hb].
  destruct (apply_shape repr keep da c2 ws2 b Hwf Hb)
    as (Hsb & Hnb & Hcb & Hwfb).
  assert (Hlonb : coord (coords b) "lon" = Some lon) by now rewrite Hcb.
  destruct (apply_returns repr keep b c1 ws1 lon m1 Hwfb Hlonb Hm1)
    as [ba Hba].
  destruct (apply_shape repr keep a c2 ws2 ab Hwfa Hab) as (Hsab & _ & Hcab & _).
  destruct (apply_shape repr keep b c1 ws1 ba Hwfb Hba) as (Hsba & _ & Hcba & _).
  rewrite Hs in Hsa, Hsb. rewrite Hn in Hna, Hnb.
  destruct (apply_values_nth repr keep da c1 ws1 a lon m1 t l
              Hlon Hs Hn Hm1 Ha) as [Va _].
  destruct (apply_values_nth repr keep a c2 ws2 ab lon m2 t l
              Hlona Hsa Hna Hm2 Hab) as [Vab _].
  destruct (apply_values_nth repr keep da c2 ws2 b lon m2 t l
              Hlon Hs Hn Hm2 Hb) as [Vb _].
  destruct (apply_values_nth repr keep b c1 ws1 ba lon m1 t l
              Hlonb Hsb Hnb Hm1 Hba) as [Vba _].
  exists lon, t, l, m1, m2, b, ba.
  split; [exact Hlon |]. split; [exact Hs |]. split; [exact Hm1 |].
  split; [exact Hm2 |]. split; [exact Hb |]. split; [exact Hba |].
  split; [now rewrite Vab, Va |]. split; [now rewrite Vba, Vb |].
  split; congruence.
Qed.

Lemma two_windows_in_either_order_witness :
  well_formed (ones_field lon360) = true
  /\ exists a ab b ba,
       apply_hann_window_lon repr_whole false (ones_field lon360) (PyInt 10) 5
       = Ok a
       /\ apply_hann_window_lon repr_whole false a (PyInt 11) 3 = Ok ab
       /\ apply_hann_window_lon repr_whole false (ones_field lon360)
            (PyInt 11) 3 = Ok b
       /\ apply_hann_window_lon repr_whole false b (PyInt 10) 5 = Ok ba
       /\ coords ba = coords ab.
Proof.
  split; [reflexivity |].
  destruct (apply_hann_window_lon repr_whole false (ones_field lon360)
              (PyInt 10) 5) as [a | e] eqn:Ha;
    [| exfalso; vm_compute in Ha; discriminate Ha].
  destruct (apply_hann_window_lon repr_whole false a (PyInt 11) 3)
    as [ab | e] eqn:Hab.
  - destruct (@two_windows_in_either_order repr_whole false
                (ones_field lon360) (PyInt 10) (PyInt 11) 5 3 a ab
                eq_refl Ha Hab)
      as (lon & t & l & m1 & m2 & b & ba & _ & _ & _ & _ & Hb & Hba & _ & _
          & _ & Hc).
    exists a, ab, b, ba. rewrite Hb. repeat split; assumption.
  - exfalso.
    destruct (apply_shape repr_whole false (ones_field lon360) (PyInt 10) 5 a
                eq_refl Ha) as (_ & _ & Hc & Hwfa).
    assert (Hm : hann_filter lon360 (PyInt 11) 3
                 = Ok (repeat 0%R 10 ++ np.hanning 3 ++ repeat 0%R 347))
      by (vm_compute; reflexivity).
    destruct (apply_returns repr_whole false a (PyInt 11) 3 lon360 _ Hwfa
                ltac:(rewrite Hc; reflexivity) Hm) as [x Hx].
    rewrite Hx in Hab. discriminate Hab.
Defined.

(** ** The matched indices *)

(** X14.  There is one matched index per candidate and none exceeds the
    length of the axis; on an ascending axis every matched index is the
    leftmost insertion point of its candidate: the longitudes before it are
    smaller than the candidate, those from it on are not. *)
Theorem matched_indices_are_insertion_points
  (lon : list Q) (c : pynum) (ws : Z) (cs : list Q) (idx : list nat) :
  candidates lon c ws = Ok cs ->
  lon_indices lon c ws = Ok idx ->
  length idx = length cs
  /\ (forall j, j < length cs -> nth j idx 0 <= length lon)
  /\ (ascending lon ->
      forall j, j < length cs ->
        insertion_point lon (nth j cs 0%Q) (nth j idx 0)).
Proof.
  intros Hcs Hidx. unfold lon_indices in Hidx. rewrite Hcs in Hidx.
  cbn [bind] in Hidx. injection Hidx as <-. unfold np.searchsorted.
  assert (Hnth : forall j, j < length cs ->
            nth j (map (np.searchsorted1 lon) cs) 0
            = np.searchsorted1 lon (nth j cs 0%Q)).
  { intros j Hj.
    rewrite nth_indep with (d' := np.searchsorted1 lon 0%Q)
      by now rewrite length_map.
    apply map_nth. }
  split; [apply length_map |]. split.
  - intros j Hj. rewrite (Hnth j Hj). apply searchsorted1_range.
  - intros Hasc j Hj. rewrite (Hnth j Hj). now apply searchsorted1_spec.
Qed.

Lemma matched_indices_are_insertion_points_witness :
  exists cs,
    candidates lon3 (PyInt 1) 1 = Ok cs
    /\ lon_indices lon3 (PyInt 1) 1 = Ok [1]
    /\ insertion_point lon3 (nth 0 cs 0%Q) 1.
Proof.
  destruct (candidates lon3 (PyInt 1) 1) as [cs | e] eqn:Hcs;
    [| exfalso; vm_compute in Hcs; discriminate Hcs].
  exists cs. split; [reflexivity |].
  assert (Hidx : lon_indices lon3 (PyInt 1) 1 = Ok [1]).
  { unfold lon_indices. rewrite Hcs. cbn [bind].
    vm_compute in Hcs. injection Hcs as <-. vm_compute. reflexivity. }
  split; [exact Hidx |].
  destruct (@matched_indices_are_insertion_points lon3 (PyInt 1) 1 cs [1]
              Hcs Hidx) as (Hlen & _ & Hins).
  apply (Hins ascending_lon3 0). rewrite <- Hlen. simpl. lia.
Defined.

(** ** Axes of any constant spacing *)

Lemma uniformly_spaced_nth (lon : list Q) (d : Q) :
  uniformly_spaced lon d = true ->
  forall k, k < length lon ->
    (nth k lon 0 == nth 0 lon 0 + inject_Z (Z.of_nat k) * d)%Q.
Proof.
  unfold uniformly_spaced. intros H.
  assert (Hstep : forall k, S k < length lon ->
            (nth (S k) lon 0 == nth k lon 0 + d)%Q).
  { intros k Hk.
    assert (Hin : In k (seq 0 (length lon - 1))) by (apply in_seq; lia).
    pose proof (proj1 (forallb_forall _ _) H k Hin) as E.
    apply Qeq_bool_eq in E. lra. }
  intros k. induction k as [| k IH]; intros Hk.
  - change (inject_Z (Z.of_nat 0)) with 0%Q. lra.
  - rewrite (Hstep k Hk), IH by lia.
    rewrite Nat2Z.inj_succ. unfold Z.succ. rewrite inject_Z_plus.
    change (inject_Z 1) with 1%Q. ring.
Qed.

Lemma grid_ascending (lon : list Q) (d : Q) :
  uniformly_spaced lon d = true -> (0 <= d)%Q -> ascending lon.
Proof.
  intros H Hd i j Hij Hj.
  rewrite (uniformly_spaced_nth lon d H i), (uniformly_spaced_nth lon d H j)
    by lia.
  assert (Hq : (inject_Z (Z.of_nat i) <= inject_Z (Z.of_nat j))%Q)
    by (rewrite <- Zle_Qle; lia).
  nra.
Qed.

(** On an axis of spacing [d > 0] the search has a closed form: the
    distance of the key from the first longitude, in steps, rounded up. *)
Lemma searchsorted1_grid (lon : list Q) (d w : Q) :
  uniformly_spaced lon d = true -> (0 < d)%Q -> 0 < length lon ->
  (w <= nth (length lon - 1) lon 0)%Q ->
  np.searchsorted1 lon w
  = Z.to_nat (Qceiling ((w - nth 0 lon 0) / d)%Q)
  /\ (Qceiling ((w - nth 0 lon 0) / d)%Q <= Z.of_nat (length lon - 1))%Z.
Proof.
  intros Hgrid Hd Hn Hw.
  pose proof (uniformly_spaced_nth lon d Hgrid) as Hnth.
  set (a0 := nth 0 lon 0%Q) in *.
  pose proof (Qceiling_lt ((w - a0) / d)) as H1.
  pose proof (Qle_ceiling ((w - a0) / d)) as H2.
  assert (E : ((w - a0) / d * d == w - a0)%Q) by (field; lra).
  set (x := ((w - a0) / d)%Q) in *.
  set (z := Qceiling x) in *.
  assert (Hz : (z <= Z.of_nat (length lon - 1))%Z).
  { rewrite <- (Qceiling_Z (Z.of_nat (length lon - 1))). unfold z.
    apply Qceiling_resp_le.
    rewrite (Hnth (length lon - 1)) in Hw by lia.
    apply (proj1 (Qmult_le_r _ _ d Hd)). lra. }
  split; [| exact Hz].
  apply searchsorted1_unique;
    [apply (grid_ascending lon d Hgrid); lra |].
  repeat split.
  - lia.
  - intros k Hk. rewrite (Hnth k) by lia.
    assert (Hq : (inject_Z (Z.of_nat k) <= inject_Z (z - 1))%Q)
      by (rewrite <- Zle_Qle; lia).
    assert (Hm : (inject_Z (z - 1) * d < x * d)%Q)
      by (apply Qmult_lt_compat_r; assumption).
    assert (Hm' : (inject_Z (Z.of_nat k) * d <= inject_Z (z - 1) * d)%Q)
      by (apply Qmult_le_compat_r; lra).
    lra.
  - intros k Hk Hkn. rewrite (Hnth k) by lia.
    assert (Hq : (inject_Z z <= inject_Z (Z.of_nat k))%Q)
      by (rewrite <- Zle_Qle; lia).
    assert (Hm : (x * d <= inject_Z z * d)%Q)
      by (apply Qmult_le_compat_r; lra).
    assert (Hm' : (inject_Z z * d <= inject_Z (Z.of_nat k) * d)%Q)
      by (apply Qmult_le_compat_r; lra).
    lra.
Qed.

Lemma grid_resolution (lon : list Q) (d : Q) :
  uniformly_spaced lon d = true -> (0 < d)%Q -> 2 <= length lon ->
  (Qabs (nth 0 lon 0 - nth 1 lon 0) == d)%Q.
Proof.
  intros Hgrid Hd Hn.
  pose proof (uniformly_spaced_nth lon d Hgrid 1 ltac:(lia)) as H1.
  change (inject_Z (Z.of_nat 1)) with 1%Q in H1.
  assert (E : (nth 0 lon 0 - nth 1 lon 0 == - d)%Q) by lra.
  rewrite E, Qabs_opp. apply Qabs_pos. lra.
Qed.

Lemma grid_steps_positive (ws : Z) (d : Q) :
  (0 <= ws ÷ 2)%Z -> (0 < d)%Q -> 1 <= grid_steps ws d.
Proof.
  intros Hh Hd. unfold grid_steps.
  assert (Hq : (0 <= inject_Z (2 * (ws ÷ 2)))%Q)
    by (change 0%Q with (inject_Z 0); rewrite <- Zle_Qle; lia).
  assert (H1 : (1 <= Qceiling ((inject_Z (2 * (ws ÷ 2)) + d) / d)%Q)%Z).
  { rewrite <- (Qceiling_Z 1). apply Qceiling_resp_le.
    change (inject_Z 1) with 1%Q. apply Qle_shift_div_l; lra. }
  lia.
Qed.

(** On an axis of spacing [d > 0] that contains every candidate, the
    candidates are [grid_steps] in number and are matched to as many
    consecutive indices. *)
Lemma grid_indices (lon : list Q) (d : Q) (c : pynum) (ws : Z) :
  uniformly_spaced lon d = true -> (0 < d)%Q ->
  2 <= length lon ->
  (0 <= ws ÷ 2)%Z ->
  (nth 0 lon 0 <= left_ext c ws)%Q ->
  (left_ext c ws + inject_Z (Z.of_nat (grid_steps ws d - 1)) * d
   <= nth (length lon - 1) lon 0)%Q ->
  exists cs,
    candidates lon c ws = Ok cs
    /\ length cs = grid_steps ws d
    /\ (forall i, i < grid_steps ws d ->
          (nth i cs 0 == left_ext c ws + inject_Z (Z.of_nat i) * d)%Q)
    /\ lon_indices lon c ws
       = Ok (seq (Z.to_nat (Qceiling ((left_ext c ws - nth 0 lon 0) / d)%Q))
                 (grid_steps ws d))
    /\ Z.to_nat (Qceiling ((left_ext c ws - nth 0 lon 0) / d)%Q)
       + grid_steps ws d <= length lon.
Proof.
  intros Hgrid Hd Hn Hh Hleft Hlast.
  pose proof (grid_resolution lon d Hgrid Hd Hn) as Hres.
  pose proof (grid_steps_positive ws d Hh Hd) as Hcount.
  set (a0 := nth 0 lon 0%Q) in *.
  set (res := Qabs (a0 - nth 1 lon 0)%Q) in *.
  set (left := left_ext c ws) in *.
  assert (Hcand : candidates lon c ws
            = Ok (map (fun i => (left + inject_Z (Z.of_nat i) * res)%Q)
                      (seq 0 (grid_steps ws d)))).
  { unfold candidates. rewrite lon_resolution_Ok by exact Hn.
    fold a0. fold res. cbn [bind]. rewrite arange_Ok by lra.
    fold left. do 3 f_equal. unfold grid_steps. f_equal.
    apply Qceiling_comp. unfold left, left_ext, right_ext.
    rewrite Hres, inject_Z_mult. change (inject_Z 2) with 2%Q.
    field. lra. }
  set (p := Z.to_nat (Qceiling ((left - a0) / d)%Q)).
  assert (Hp0 : (0 <= Qceiling ((left - a0) / d)%Q)%Z).
  { rewrite <- (Qceiling_Z 0). apply Qceiling_resp_le.
    change (inject_Z 0) with 0%Q. apply Qle_shift_div_l; lra. }
  assert (Hshift : forall i, i < grid_steps ws d ->
            np.searchsorted1 lon (left + inject_Z (Z.of_nat i) * res)%Q
            = p + i
            /\ p + i < length lon).
  { intros i Hi.
    assert (Hi' : (inject_Z (Z.of_nat i)
                   <= inject_Z (Z.of_nat (grid_steps ws d - 1)))%Q)
      by (rewrite <- Zle_Qle; lia).
    assert (Hid : (inject_Z (Z.of_nat i) * d
                   <= inject_Z (Z.of_nat (grid_steps ws d - 1)) * d)%Q)
      by (apply Qmult_le_compat_r; lra).
    assert (Hin : (left + inject_Z (Z.of_nat i) * res
                   <= nth (length lon - 1) lon 0)%Q)
      by (rewrite Hres; lra).
    destruct (searchsorted1_grid lon d _ Hgrid Hd ltac:(lia) Hin)
      as [Hidx Hz].
    fold a0 in Hidx, Hz.
    assert (Hval : ((left + inject_Z (Z.of_nat i) * res - a0) / d
                    == (left - a0) / d + inject_Z (Z.of_nat i))%Q)
      by (rewrite Hres; field; lra).
    rewrite (Qceiling_comp _ _ Hval), Qceiling_plus_Z in Hidx, Hz.
    rewrite Hidx. unfold p. lia. }
  exists (map (fun i => (left + inject_Z (Z.of_nat i) * res)%Q)
              (seq 0 (grid_steps ws d))).
  repeat split.
  - exact Hcand.
  - now rewrite length_map, length_seq.
  - intros i Hi.
    rewrite nth_indep
      with (d' := (fun i => (left + inject_Z (Z.of_nat i) * res)%Q) 0)
      by now rewrite length_map, length_seq.
    rewrite map_nth with (f := fun i => (left + inject_Z (Z.of_nat i) * res)%Q).
    rewrite seq_nth by exact Hi. simpl Nat.add. now rewrite Hres.
  - unfold lon_indices. rewrite Hcand. cbn [bind]. f_equal.
    unfold np.searchsorted. rewrite map_map, (seq_as_map p).
    apply map_ext_in. intros i Hi. apply in_seq in Hi.
    apply Hshift. lia.
  - destruct (Hshift (grid_steps ws d - 1) ltac:(lia)) as [_ Hlt].
    fold p. lia.
Qed.

Lemma grid_steps_single (ws : Z) (d : Q) :
  (ws ÷ 2 = 0)%Z -> (0 < d)%Q -> grid_steps ws d = 1.
Proof.
  intros Hh Hd. unfold grid_steps. rewrite Hh.
  rewrite (Qceiling_comp _ (inject_Z 1)).
  - now rewrite Qceiling_Z.
  - change (inject_Z (2 * 0)) with 0%Q. change (inject_Z 1) with 1%Q.
    field. lra.
Qed.

(** X9.  On an axis of whole longitudes with a constant spacing [d > 0]
    that contains every candidate, with a whole centre, the window is
    matched to [grid_steps window_size d] consecutive indices, and the
    function returns exactly when that number is [window_size]; otherwise
    it raises the shape error.  (For [d = 1] the number is
    [2 * (window_size div 2) + 1], so the odd sizes pass; for [d = 2] it is
    [window_size div 2 + 1].) *)
Theorem window_fits_iff_size_is_step_count
  (repr : Q -> string) (keep : bool) (da : DataArray) (lon : list Q) (d : Q)
  (c : pynum) (ws : Z) :
  well_formed da = true ->
  coord (coords da) "lon" = Some lon ->
  whole_inputs lon c ws = true ->
  uniformly_spaced lon d = true -> (0 < d)%Q ->
  2 <= length lon ->
  (0 <= ws)%Z ->
  (nth 0 lon 0 <= left_ext c ws)%Q ->
  (left_ext c ws + inject_Z (Z.of_nat (grid_steps ws d - 1)) * d
   <= nth (length lon - 1) lon 0)%Q ->
  exists first,
    lon_indices lon c ws = Ok (seq first (grid_steps ws d))
    /\ first + grid_steps ws d <= length lon
    /\ (Z.to_nat ws = grid_steps ws d ->
        hann_filter lon c ws
        = Ok (repeat 0%R first ++ np.hanning ws
                ++ repeat 0%R (length lon - (first + Z.to_nat ws)))
        /\ exists out, apply_hann_window_lon repr keep da c ws = Ok out)
    /\ (Z.to_nat ws <> grid_steps ws d ->
        apply_hann_window_lon repr keep da c ws = Raise BroadcastError).
Proof.
  intros Hwf Hlon _ Hgrid Hd Hn Hws Hleft Hlast.
  assert (Hh : (0 <= ws ÷ 2)%Z) by (apply Z.quot_pos; lia).
  destruct (grid_indices lon d c ws Hgrid Hd Hn Hh Hleft Hlast)
    as (cs & _ & _ & _ & Hidx & Hfit).
  pose proof (grid_steps_positive ws d Hh Hd) as Hcount.
  set (p := Z.to_nat (Qceiling ((left_ext c ws - nth 0 lon 0) / d)%Q)) in *.
  replace (grid_steps ws d) with (grid_steps ws d - 1 + 1) in Hidx by lia.
  pose proof (hann_filter_of_span lon c ws p (grid_steps ws d - 1) Hidx
                ltac:(lia)) as Hmask.
  replace (grid_steps ws d - 1 + 1) with (grid_steps ws d) in * by lia.
  exists p. split; [exact Hidx |]. split; [exact Hfit |]. split.
  - intros Heq.
    assert (Hm : hann_filter lon c ws
                 = Ok (repeat 0%R p ++ np.hanning ws
                         ++ repeat 0%R (length lon - (p + Z.to_nat ws)))).
    { rewrite Hmask.
      destruct (Nat.eqb_spec (Z.to_nat ws) (grid_steps ws d));
        [| contradiction].
      do 4 f_equal. lia. }
    split; [exact Hm |].
    exact (apply_returns repr keep da c ws lon _ Hwf Hlon Hm).
  - intros Hne. apply apply_raises with (lon := lon); [exact Hlon |].
    rewrite Hmask.
    destruct (Nat.eqb_spec (Z.to_nat ws) (grid_steps ws d)); [contradiction |].
    destruct (Nat.eqb_spec (Z.to_nat ws) 1) as [H1 | H1]; [| reflexivity].
    exfalso. apply Hne.
    assert (ws = 1%Z) by lia. subst ws.
    now rewrite grid_steps_single.
Qed.

Lemma window_fits_iff_size_is_step_count_witness :
  grid_steps 2 2 = 2
  /\ exists out,
       apply_hann_window_lon repr_whole false (ones_field lon180) (PyInt 5) 2
       = Ok out.
Proof.
  split; [reflexivity |].
  destruct (@window_fits_iff_size_is_step_count repr_whole false
              (ones_field lon180) lon180 2 (PyInt 5) 2 eq_refl eq_refl
              ltac:(vm_compute; reflexivity)
              ltac:(vm_compute; reflexivity) ltac:(reflexivity)
              ltac:(vm_compute; lia) ltac:(lia)
              ltac:(vm_compute; discriminate) ltac:(vm_compute; discriminate))
    as (first & _ & _ & Hfits & _).
  exact (proj2 (Hfits eq_refl)).
Defined.




(** ** The centre of the window *)

Lemma hanning_centre (h : Z) (d : R) :
  (0 <= h)%Z -> nth (Z.to_nat h) (np.hanning (2 * h + 1)) d = 1%R.
Proof.
  intros Hh. destruct (Z.eq_dec h 0) as [-> | Hne].
  - reflexivity.
  - rewrite hanning_nth by lia.
    replace (1 - (2 * h + 1) + Z.of_nat (Z.to_nat h) * 2)%Z with 0%Z by lia.
    replace (PI * 0 / IZR (2 * h + 1 - 1))%R with 0%R
      by (unfold Rdiv; ring).
    rewrite cos_0. lra.
Qed.

(** X11.  On an axis of whole longitudes with a spacing of one that
    contains the window, with a whole centre, the function returns for
    every odd window size, and the weight at the centre is 1: at the
    longitude of the centre every output value is the input value times
    1. *)
Theorem centre_column_has_weight_one
  (repr : Q -> string) (keep : bool) (da : DataArray) (lon : list Q)
  (c : pynum) (ws : Z) (t l : nat) :
  well_formed da = true ->
  coord (coords da) "lon" = Some lon ->
  np.shape (values da) = [t; l; length lon] ->
  whole_inputs lon c ws = true ->
  uniformly_spaced lon 1 = true ->
  2 <= length lon ->
  (1 <= ws)%Z -> Z.odd ws = true ->
  (nth 0 lon 0 <= left_ext c ws)%Q ->
  (right_ext c ws <= nth (length lon - 1) lon 0)%Q ->
  exists j out,
    j < length lon
    /\ insertion_point lon (num_value c) j
    /\ apply_hann_window_lon repr keep da c ws = Ok out
    /\ forall q, q < t * l ->
         nth (q * length lon + j) (np.data (values out)) 0%R
         = (nth (q * length lon + j) (np.data (values da)) 0 * 1)%R.
Proof.
  intros Hwf Hlon Hs _ Hgrid Hn Hws Hodd Hleft Hright.
  apply Z.odd_spec in Hodd. destruct Hodd as [h Hh].
  assert (Hq : (ws ÷ 2 = h)%Z).
  { subst ws. rewrite Z.quot_div_nonneg by lia.
    rewrite Z.mul_comm, Z.div_add_l by lia. now rewrite Z.add_0_r. }
  assert (Hh0 : (0 <= h)%Z) by lia.
  assert (Hd : (0 < 1)%Q) by reflexivity.
  assert (Hsteps : grid_steps ws 1 = 2 * Z.to_nat h + 1).
  { unfold grid_steps. rewrite Hq.
    rewrite (Qceiling_comp _ (inject_Z (2 * h + 1))).
    - rewrite Qceiling_Z. lia.
    - rewrite inject_Z_plus. change (inject_Z 1) with 1%Q. field. }
  assert (Hhq : (inject_Z (Z.of_nat (2 * Z.to_nat h)) == 2 * inject_Z h)%Q).
  { replace (Z.of_nat (2 * Z.to_nat h)) with (2 * h)%Z by lia.
    rewrite inject_Z_mult. reflexivity. }
  assert (Hlast : (left_ext c ws
                   + inject_Z (Z.of_nat (grid_steps ws 1 - 1)) * 1
                   <= nth (length lon - 1) lon 0)%Q).
  { rewrite Hsteps. replace (2 * Z.to_nat h + 1 - 1) with (2 * Z.to_nat h)
      by lia.
    rewrite Hhq. unfold left_ext, right_ext in *. rewrite Hq in *. lra. }
  destruct (grid_indices lon 1 c ws Hgrid Hd Hn ltac:(lia) Hleft Hlast)
    as (cs & _ & _ & _ & Hidx & Hfit).
  rewrite Hsteps in Hidx, Hfit.
  set (x := ((left_ext c ws - nth 0 lon 0) / 1)%Q) in *.
  set (p := Z.to_nat (Qceiling x)) in *.
  assert (Hp0 : (0 <= Qceiling x)%Z).
  { rewrite <- (Qceiling_Z 0). apply Qceiling_resp_le.
    change (inject_Z 0) with 0%Q. unfold x. apply Qle_shift_div_l; lra. }
  assert (Hmask : hann_filter lon c ws
            = Ok (repeat 0%R p ++ np.hanning ws
                    ++ repeat 0%R (length lon - (p + 2 * Z.to_nat h + 1)))).
  { rewrite (hann_filter_of_span lon c ws p (2 * Z.to_nat h) Hidx)
      by lia.
    destruct (Nat.eqb_spec (Z.to_nat ws) (2 * Z.to_nat h + 1)); [| lia].
    reflexivity. }
  assert (Hc : (num_value c <= nth (length lon - 1) lon 0)%Q).
  { unfold right_ext in Hright. rewrite Hq in Hright.
    assert (0 <= inject_Z h)%Q
      by (change 0%Q with (inject_Z 0); rewrite <- Zle_Qle; lia).
    lra. }
  destruct (searchsorted1_grid lon 1 (num_value c) Hgrid Hd ltac:(lia) Hc)
    as [Hj _].
  assert (Hval : ((num_value c - nth 0 lon 0) / 1 == x + inject_Z h)%Q).
  { unfold x, left_ext. rewrite Hq. field. }
  rewrite (Qceiling_comp _ _ Hval), Qceiling_plus_Z in Hj.
  assert (Hj' : np.searchsorted1 lon (num_value c) = p + Z.to_nat h)
    by (rewrite Hj; unfold p; lia).
  pose proof (searchsorted1_spec lon (num_value c)
                (grid_ascending lon 1 Hgrid ltac:(lra))) as Hins.
  rewrite Hj' in Hins.
  destruct (apply_returns repr keep da c ws lon _ Hwf Hlon Hmask) as [out Hout].
  exists (p + Z.to_nat h), out.
  split; [lia |]. split; [exact Hins |]. split; [exact Hout |].
  intros q Hqt.
  destruct (well_formed_inv da Hwf) as (lon' & t' & l' & Hlon' & Hs' & _ & Hnn).
  rewrite Hlon in Hlon'. injection Hlon' as <-.
  rewrite Hs in Hs'. injection Hs' as <- <-.
  destruct (apply_values_nth repr keep da c ws out lon _ t l
              Hlon Hs Hnn Hmask Hout) as [_ Hnth].
  rewrite (Hnth q (p + Z.to_nat h) Hqt ltac:(lia)).
  rewrite nth_zeros_curve_zeros, hanning_length.
  destruct (Nat.leb_spec p (p + Z.to_nat h)); [| lia].
  destruct (Nat.ltb_spec (p + Z.to_nat h) (p + Z.to_nat ws)); [| lia].
  simpl andb. cbv iota.
  replace (p + Z.to_nat h - p) with (Z.to_nat h) by lia.
  subst ws. rewrite hanning_centre by lia. reflexivity.
Qed.

Lemma centre_column_has_weight_one_witness :
  exists out,
    apply_hann_window_lon repr_whole false (ones_field lon360) (PyInt 10) 5
    = Ok out
    /\ nth 10 (np.data (values out)) 0%R = (1 * 1)%R.
Proof.
  destruct (@centre_column_has_weight_one repr_whole false
              (ones_field lon360) lon360 (PyInt 10) 5 1 1
              eq_refl eq_refl eq_refl ltac:(vm_compute; reflexivity)
              ltac:(vm_compute; reflexivity)
              ltac:(vm_compute; lia) ltac:(lia) eq_refl
              ltac:(vm_compute; discriminate) ltac:(vm_compute; discriminate))
    as (j & out & Hj & Hins & Hout & Hnth).
  assert (Ej : j = 10).
  { apply (insertion_point_unique lon360 (num_value (PyInt 10)) j
             (np.searchsorted1 lon360 10%Q) Hins).
    apply searchsorted1_spec.
    apply (grid_ascending lon360 1); [vm_compute; reflexivity | lra]. }
  subst j. exists out. split; [exact Hout |].
  exact (Hnth 0 ltac:(lia)).
Defined.

(** ** The other attributes *)

Lemma dict_get_set_other (d : dict) (k k' v : string) :
  k' <> k -> dict_get (dict_set d k v) k' = dict_get d k'.
Proof.
  intros Hne. induction d as [| [k0 v0] d IH]; simpl.
  - destruct (String.eqb_spec k k'); [congruence | reflexivity].
  - destruct (String.eqb_spec k0 k) as [-> | Hk0]; simpl.
    + destruct (String.eqb_spec k k'); [congruence |].
      reflexivity.
    + destruct (String.eqb_spec k0 k'); [reflexivity | exact IH].
Qed.

(** X15.  [attrs.update] touches the description only: every other
    attribute of the returned array is the attribute of the input when
    xarray keeps attributes through the product, and is absent when it
    drops them. *)
Theorem other_attributes_follow_keep_attrs
  (repr : Q -> string) (keep : bool) (da : DataArray) (c : pynum) (ws : Z)
  (out : DataArray) (k : string) :
  apply_hann_window_lon repr keep da c ws = Ok out ->
  k <> "description" ->
  dict_get (attrs out) k = if keep then dict_get (attrs da) k else None.
Proof.
  intros H Hk. apply apply_Ok in H.
  destruct H as (lon & mask & t & l & w & _ & _ & _ & _ & _ & ->).
  cbn [attrs]. rewrite dict_get_set_other by exact Hk.
  destruct keep; reflexivity.
Qed.

Lemma other_attributes_follow_keep_attrs_witness :
  exists kept dropped,
    apply_hann_window_lon repr_whole true (ones_field lon360) (PyInt 10) 5
    = Ok kept
    /\ apply_hann_window_lon repr_whole false (ones_field lon360) (PyInt 10) 5
       = Ok dropped
    /\ dict_get (attrs kept) "units" = Some "K"
    /\ dict_get (attrs dropped) "units" = None.
Proof.
  destruct (apply_hann_window_lon repr_whole true (ones_field lon360)
              (PyInt 10) 5) as [kept | e] eqn:Hk;
    [| exfalso; vm_compute in Hk; discriminate Hk].
  destruct (apply_hann_window_lon repr_whole false (ones_field lon360)
              (PyInt 10) 5) as [dropped | e] eqn:Hd;
    [| exfalso; vm_compute in Hd; discriminate Hd].
  exists kept, dropped. split; [reflexivity |]. split; [reflexivity |].
  split.
  - exact (@other_attributes_follow_keep_attrs repr_whole true
             (ones_field lon360) (PyInt 10) 5 kept "units" Hk
             ltac:(discriminate)).
  - exact (@other_attributes_follow_keep_attrs repr_whole false
             (ones_field lon360) (PyInt 10) 5 dropped "units" Hd
             ltac:(discriminate)).
Defined.
